(** * windows_availability.h: version-string parser and "at least" check

    A shallow embedding of [include/windows_availability.h].

    - [DWORD] is a 32-bit unsigned integer, carried as a [Z] with the
      wrap-around written out ([to_DWORD]).
    - [std::string_view] is a [string]; [substr], which throws on a start
      position past the end, returns an [option].
    - [char] is MSVC's signed 8-bit [char] ([char_val]).
    - the three [static inline] globals are the record [SystemVersion], and
      the functions that read or write them pass it explicitly.
    - [RtlGetNtVersionNumbers], looked up in ntdll.dll, is the environment
      [Ntdll]. *)

From Stdlib Require Import ZArith Bool List Ascii String Lia.
Import ListNotations.

Open Scope string_scope.
Open Scope Z_scope.

(** ** Machine integers and characters *)

Definition DWORD := Z.

Definition DWORD_MAX : Z := 4294967295.

(** [static_cast<DWORD>(z)] and the result of DWORD arithmetic. *)
Definition to_DWORD (z : Z) : DWORD := z mod 2 ^ 32.

(** The value of a [char] in an expression: signed, 8 bits. *)
Definition char_val (c : ascii) : Z :=
  let n := Z.of_N (N_of_ascii c) in
  if n <? 128 then n else n - 256.

(** ** std::string_view *)

Module sv.

(** [s.substr(pos)]: [None] is [std::out_of_range], thrown when
    [pos > s.size()]. *)
Fixpoint substr (s : string) (pos : nat) {struct pos} : option string :=
  match pos, s with
  | O, _ => Some s
  | S _, EmptyString => None
  | S pos', String _ s' => substr s' pos'
  end.

(** [char_traits<char>::compare] followed by the comparison of the
    lengths: negative, zero or positive.  Characters compare as
    [unsigned char]. *)
Fixpoint compare_views (a b : string) : Z :=
  match a, b with
  | EmptyString, EmptyString => 0
  | EmptyString, String _ _ => -1
  | String _ _, EmptyString => 1
  | String x a', String y b' =>
      match N.compare (N_of_ascii x) (N_of_ascii y) with
      | Lt => -1
      | Gt => 1
      | Eq => compare_views a' b'
      end
  end.

(** [s.compare(0, n, t)]: the first [min n s.size()] characters of [s]
    against [t].  Position 0 is inside every view, so this call never
    throws. *)
Definition compare (s : string) (n : nat) (t : string) : Z :=
  compare_views (substring 0 n s) t.

End sv.

(** ** namespace __builtin_availability *)

Definition VersionTuple : Type := DWORD * DWORD * DWORD.

(** [operator<] of [std::tuple]: lexicographic, component by component. *)
Definition tuple_lt (a b : VersionTuple) : bool :=
  let '(a0, a1, a2) := a in
  let '(b0, b1, b2) := b in
  if a0 <? b0 then true
  else if b0 <? a0 then false
  else if a1 <? b1 then true
  else if b1 <? a1 then false
  else a2 <? b2.

(** [operator<=] of [std::tuple]: [a <= b] is [!(b < a)]. *)
Definition tuple_le (a b : VersionTuple) : bool := negb (tuple_lt b a).

Module detail.

(** [makeVersion(M, m, b)] *)
Definition makeVersion (M m b : DWORD) : VersionTuple := (M, m, b).

(** [makeVersion()]: the defaults are [static_cast<DWORD>(-1)], 0 and 0. *)
Definition makeVersion_invalid : VersionTuple :=
  makeVersion (to_DWORD (-1)) 0 0.

(** [checkPlatform] *)
Definition checkPlatform (s : string) : bool :=
  (sv.compare s 8 "Windows " =? 0) || (sv.compare s 8 "windows " =? 0).

(** [c < '0' || c > '9'] *)
Definition not_digit (c : ascii) : bool :=
  (char_val c <? char_val "0"%char) || (char_val c >? char_val "9"%char).

(** [static_cast<DWORD>(c - '0')] *)
Definition digit_of (c : ascii) : DWORD :=
  to_DWORD (char_val c - char_val "0"%char).

(** The [while] loop of [extractVersionNumber], on the cursor and the
    accumulator. *)
Fixpoint extract_loop (s : string) (v : DWORD) : string * DWORD :=
  match s with
  | EmptyString => (s, v)
  | String c s' =>
      if not_digit c then (s, v)
      else extract_loop s' (to_DWORD (to_DWORD (v * 10) + digit_of c))
  end.

(** [extractVersionNumber(s, v)]: the returned boolean, the cursor and the
    value after the call.  A first character that is not a digit is
    consumed all the same. *)
Definition extractVersionNumber (s : string) (v : DWORD)
  : bool * string * DWORD :=
  match s with
  | EmptyString => (false, s, v)
  | String c s' =>
      if not_digit c then (false, s', v)
      else
        let '(s'', v') := extract_loop s' (digit_of c) in
        (true, s'', v')
  end.

(** [s.empty() || (s[0] != '.' && s[0] != '_' && s[0] != ' ')] *)
Definition no_separator (s : string) : bool :=
  match s with
  | EmptyString => true
  | String c _ =>
      negb (Ascii.eqb c ".") && negb (Ascii.eqb c "_") && negb (Ascii.eqb c " ")
  end.

(** The first [if]/[else if] chain of [parseWindowsVersion] (the aliases,
    then the requested major number): [reqMajor], [minor] and the cursor
    after it, or [None] where the source returns [makeVersion()]. *)
Definition requestedMajor (s : string) : option (DWORD * DWORD * string) :=
  if (sv.compare s 5 "Vista" =? 0) || (sv.compare s 5 "vista" =? 0) then
    Some (6, 0, s)
  else if (sv.compare s 2 "XP" =? 0) || (sv.compare s 2 "xp" =? 0) then
    Some (5, 1, s)
  else
    let '(ok, s', reqMajor) := extractVersionNumber s 0 in
    if ok then Some (reqMajor, 0, s') else None.

(** The named-update branches of the second chain: the build a branch
    assigns, or [None] when control reaches the last [else if]. *)
Definition namedUpdate (reqMajor : DWORD) (s : string) : option DWORD :=
  if (reqMajor =? 11) && (sv.compare s 4 "22H2" =? 0) then Some 22621
  else if (reqMajor =? 11) && (sv.compare s 4 "21H2" =? 0) then Some 22000
  else if (reqMajor =? 10) && (sv.compare s 4 "22H2" =? 0) then Some 19045
  else if (reqMajor =? 10) && (sv.compare s 4 "21H2" =? 0) then Some 19044
  else if (reqMajor =? 10) && (sv.compare s 4 "21H1" =? 0) then Some 19043
  else if (reqMajor =? 10) && (sv.compare s 4 "20H2" =? 0) then Some 19042
  else None.

(** The chain inside [if (major == 10 && minor > 0)]: the new build. *)
Definition buildOfMinor (reqMajor minor : DWORD) : DWORD :=
  if (reqMajor =? 10) && (minor =? 2004) then 19041
  else if (reqMajor =? 10) && (minor =? 1909) then 18363
  else if (reqMajor =? 10) && (minor =? 1903) then 18362
  else if (reqMajor =? 10) && (minor =? 1809) then 17763
  else if (reqMajor =? 10) && (minor =? 1803) then 17134
  else if (reqMajor =? 10) && (minor =? 1709) then 16299
  else if (reqMajor =? 10) && (minor =? 1703) then 15063
  else if (reqMajor =? 10) && (minor =? 1607) then 14393
  else if (reqMajor =? 10) && (minor =? 1511) then 10586
  else if (reqMajor =? 10) && (minor =? 1507) then 10240
  else minor.

(** [parseWindowsVersion] from the third statement group on: lines
    182 to 224, entered with the second component settled. *)
Definition parseBuild (reqMajor major minor build : DWORD) (s : string)
  : VersionTuple :=
  let minor := if (reqMajor =? 8) && (minor =? 1) then 3 else minor in
  let '(minor, build) :=
    if (major =? 10) && (minor >? 0)
    then (0, buildOfMinor reqMajor minor)
    else (minor, build) in
  if no_separator s then makeVersion major minor build
  else
    match s with
    | EmptyString => makeVersion major minor build
    | String _ s =>
        let '(ok, _, build') := extractVersionNumber s build in
        if ok then makeVersion major minor build'
        else makeVersion major minor build'
    end.

(** [parseWindowsVersion] after [s = s.substr(8)]. *)
Definition parseStripped (s : string) : VersionTuple :=
  match requestedMajor s with
  | None => makeVersion_invalid
  | Some (reqMajor, minor, s) =>
      let build := 0 in
      let major := reqMajor in
      let '(major, minor) :=
        if reqMajor =? 7 then (6, 1) else (major, minor) in
      let '(major, minor) :=
        if reqMajor =? 8 then (6, 2) else (major, minor) in
      let '(major, build) :=
        if reqMajor =? 11 then (10, 22000) else (major, build) in
      if no_separator s then makeVersion major minor build
      else
        match s with
        | EmptyString => makeVersion major minor build
        | String _ s =>
            match namedUpdate reqMajor s with
            | Some build => parseBuild reqMajor major minor build s
            | None =>
                let '(ok, s, minor) := extractVersionNumber s minor in
                if ok then parseBuild reqMajor major minor build s
                else makeVersion major minor build
            end
        end
  end.

(** [parseWindowsVersion(s)]; [None] is the [std::out_of_range] of
    [s.substr(8)] on a view shorter than 8 characters. *)
Definition parseWindowsVersion (s : string) : option VersionTuple :=
  match sv.substr s 8 with
  | None => None
  | Some s => Some (parseStripped s)
  end.

End detail.

(** The three globals [majorVersion], [minorVersion], [buildVersion]. *)
Record SystemVersion : Type := mkSystemVersion {
  majorVersion : DWORD;
  minorVersion : DWORD;
  buildVersion : DWORD
}.

(** Their static initialisers. *)
Definition unpopulated : SystemVersion := mkSystemVersion 0 0 0.

(** [std::tie(majorVersion, minorVersion, buildVersion)] *)
Definition tie (st : SystemVersion) : VersionTuple :=
  (majorVersion st, minorVersion st, buildVersion st).

(** What [GetProcAddress(inst, "RtlGetNtVersionNumbers")] gives: [None] for a
    null pointer, otherwise the three numbers the function writes. *)
Definition Ntdll : Type := option (DWORD * DWORD * DWORD).

(** [_loadSystemVersion()]; [None] is the failed [assert]. *)
Definition _loadSystemVersion (env : Ntdll) (st : SystemVersion)
  : option SystemVersion :=
  match env with
  | None => None
  | Some (M, m, b) =>
      let st := mkSystemVersion M m b in
      Some (mkSystemVersion (majorVersion st) (minorVersion st)
              (Z.land (buildVersion st) 0x0FFFFFFF))
  end.

(** [if (!majorVersion) _loadSystemVersion();] *)
Definition loadIfUnpopulated (env : Ntdll) (st : SystemVersion)
  : option SystemVersion :=
  if majorVersion st =? 0 then _loadSystemVersion env st else Some st.

(** [_isVersionAtLeast(version)]: the returned boolean and the globals after
    the call. *)
Definition _isVersionAtLeast (env : Ntdll) (st : SystemVersion)
  (version : VersionTuple) : option (bool * SystemVersion) :=
  match loadIfUnpopulated env st with
  | None => None
  | Some st => Some (tuple_le version (tie st), st)
  end.

(** The macro [___windows_available_check(x)]. *)
Definition ___windows_available_check (env : Ntdll) (st : SystemVersion)
  (x : string) : option (bool * SystemVersion) :=
  if detail.checkPlatform x then
    match detail.parseWindowsVersion x with
    | None => None
    | Some version => _isVersionAtLeast env st version
    end
  else Some (false, st).

(** [a || b] between two checks: [b] runs, on the globals [a] left, only
    when [a] returned false; a failed [assert] in either ends the run. *)
Definition or_else (a : option (bool * SystemVersion))
  (b : SystemVersion -> option (bool * SystemVersion))
  : option (bool * SystemVersion) :=
  match a with
  | None => None
  | Some (true, st) => Some (true, st)
  | Some (false, st) => b st
  end.

(** The macros [___windows_available_helper_1] to [_5], on the strings
    that [#x] makes of their arguments. *)
Definition ___windows_available_helper_1 (env : Ntdll) (st : SystemVersion)
  (x : string) : option (bool * SystemVersion) :=
  ___windows_available_check env st x.

Definition ___windows_available_helper_2 (env : Ntdll) (st : SystemVersion)
  (x x2 : string) : option (bool * SystemVersion) :=
  or_else (___windows_available_check env st x)
    (fun st => ___windows_available_helper_1 env st x2).

Definition ___windows_available_helper_3 (env : Ntdll) (st : SystemVersion)
  (x x2 x3 : string) : option (bool * SystemVersion) :=
  or_else (___windows_available_check env st x)
    (fun st => ___windows_available_helper_2 env st x2 x3).

Definition ___windows_available_helper_4 (env : Ntdll) (st : SystemVersion)
  (x x2 x3 x4 : string) : option (bool * SystemVersion) :=
  or_else (___windows_available_check env st x)
    (fun st => ___windows_available_helper_3 env st x2 x3 x4).

Definition ___windows_available_helper_5 (env : Ntdll) (st : SystemVersion)
  (x x2 x3 x4 x5 : string) : option (bool * SystemVersion) :=
  or_else (___windows_available_check env st x)
    (fun st => ___windows_available_helper_4 env st x2 x3 x4 x5).

(** The argument lists for which [___wa_num] names a helper: one to five
    version strings. *)
Inductive VersionList : Type :=
| versions1 (x1 : string)
| versions2 (x1 x2 : string)
| versions3 (x1 x2 x3 : string)
| versions4 (x1 x2 x3 x4 : string)
| versions5 (x1 x2 x3 x4 x5 : string).

(** [___windows_available(...)], also [windows_version_available] and
    [__builtin_available]: the helper that [___wa_num] selects. *)
Definition ___windows_available (env : Ntdll) (st : SystemVersion)
  (a : VersionList) : option (bool * SystemVersion) :=
  match a with
  | versions1 x1 => ___windows_available_helper_1 env st x1
  | versions2 x1 x2 => ___windows_available_helper_2 env st x1 x2
  | versions3 x1 x2 x3 => ___windows_available_helper_3 env st x1 x2 x3
  | versions4 x1 x2 x3 x4 => ___windows_available_helper_4 env st x1 x2 x3 x4
  | versions5 x1 x2 x3 x4 x5 =>
      ___windows_available_helper_5 env st x1 x2 x3 x4 x5
  end.

(** ** Vocabulary of the specification *)

(** Lexicographic order on (major, minor, build). *)
Definition lex_lt (a b : VersionTuple) : Prop :=
  let '(a0, a1, a2) := a in
  let '(b0, b1, b2) := b in
  a0 < b0 \/ (a0 = b0 /\ (a1 < b1 \/ (a1 = b1 /\ a2 < b2))).

Definition lex_le (a b : VersionTuple) : Prop := lex_lt a b \/ a = b.

(** The sentinel triple as the specification encodes it. *)
Definition sentinel : VersionTuple := (DWORD_MAX, 0, 0).

(** A decimal digit character, by its code. *)
Definition is_decimal_digit (c : ascii) : bool :=
  let n := Z.of_N (N_of_ascii c) in (48 <=? n) && (n <=? 57).

Fixpoint all_digits (s : string) : bool :=
  match s with
  | EmptyString => true
  | String c s' => is_decimal_digit c && all_digits s'
  end.

Definition starts_with_digit (s : string) : bool :=
  match s with
  | EmptyString => false
  | String c _ => is_decimal_digit c
  end.

(** The number a digit string denotes, read after an already denoted
    prefix [acc]; no bound. *)
Fixpoint decimal_from (acc : Z) (ds : string) : Z :=
  match ds with
  | EmptyString => acc
  | String c ds' => decimal_from (acc * 10 + (Z.of_N (N_of_ascii c) - 48)) ds'
  end.

Definition decimal_value (ds : string) : Z := decimal_from 0 ds.

(** The maximal run of digits a string begins with, and what follows
    it. *)
Fixpoint digit_prefix (s : string) : string :=
  match s with
  | EmptyString => EmptyString
  | String c s' =>
      if is_decimal_digit c then String c (digit_prefix s') else EmptyString
  end.

Fixpoint after_digits (s : string) : string :=
  match s with
  | EmptyString => EmptyString
  | String c s' => if is_decimal_digit c then after_digits s' else s
  end.

(** The three accepted separators. *)
Definition is_separator (c : ascii) : bool :=
  Ascii.eqb c "." || Ascii.eqb c "_" || Ascii.eqb c " ".

(** [long] is [short] followed by a separator and further text. *)
Definition extends_by_components (short long : string) : Prop :=
  exists c ext, is_separator c = true /\ long = short ++ String c ext.

(** The lower-case form of a character and of a string: two strings are
    capitalizations of one another when their lower-case forms agree. *)
Definition to_lower (c : ascii) : ascii :=
  let n := N_of_ascii c in
  if ((65 <=? n) && (n <=? 90))%N then ascii_of_N (n + 32) else c.

Fixpoint lowercase (s : string) : string :=
  match s with
  | EmptyString => EmptyString
  | String c s' => String (to_lower c) (lowercase s')
  end.

(** The named feature-update codes: requested major, code, build. *)
Definition named_updates : list (DWORD * string * DWORD) :=
  [ (11, "22H2", 22621); (11, "21H2", 22000);
    (10, "22H2", 19045); (10, "21H2", 19044);
    (10, "21H1", 19043); (10, "20H2", 19042) ].

(** [s] begins with [code], decided along [code]. *)
Fixpoint begins_with (code s : string) {struct code} : bool :=
  match code with
  | EmptyString => true
  | String a code' =>
      match s with
      | EmptyString => false
      | String b s' => Ascii.eqb a b && begins_with code' s'
      end
  end.

(** [c] does not occur in [code]. *)
Fixpoint free_of (c : ascii) (code : string) : bool :=
  match code with
  | EmptyString => true
  | String a code' => negb (Ascii.eqb a c) && free_of c code'
  end.

(** The strings of an argument list, in order. *)
Definition version_strings (a : VersionList) : list string :=
  match a with
  | versions1 x1 => [x1]
  | versions2 x1 x2 => [x1; x2]
  | versions3 x1 x2 x3 => [x1; x2; x3]
  | versions4 x1 x2 x3 x4 => [x1; x2; x3; x4]
  | versions5 x1 x2 x3 x4 x5 => [x1; x2; x3; x4; x5]
  end.

(** The checks of a list of strings, joined by [||] from left to right. *)
Fixpoint any_available (env : Ntdll) (st : SystemVersion) (xs : list string)
  : option (bool * SystemVersion) :=
  match xs with
  | [] => Some (false, st)
  | x :: xs' =>
      or_else (___windows_available_check env st x)
        (fun st => any_available env st xs')
  end.

(** The string [x] names this platform and a version that the live
    triple [live] reaches. *)
Definition satisfied_by (live : SystemVersion) (x : string) : bool :=
  detail.checkPlatform x &&
  match detail.parseWindowsVersion x with
  | Some version => tuple_le version (tie live)
  | None => false
  end.

(** A 32-bit unsigned value, and a triple of them. *)
Definition is_DWORD (z : Z) : Prop := 0 <= z < 2 ^ 32.

Definition DWORD_triple (v : VersionTuple) : Prop :=
  let '(M, m, b) := v in is_DWORD M /\ is_DWORD m /\ is_DWORD b.

(** The value a digit run leaves in a DWORD. *)
Definition DWORD_value (ds : string) : DWORD := decimal_value ds mod 2 ^ 32.

(** The major number the parser reports for a requested major number. *)
Definition reported_major (V : DWORD) : DWORD :=
  if V =? 7 then 6 else if V =? 8 then 6 else if V =? 11 then 10 else V.

(** Two strings that differ only in which separator stands where. *)
Fixpoint same_up_to_separators (s1 s2 : string) : Prop :=
  match s1, s2 with
  | EmptyString, EmptyString => True
  | String a s1', String b s2' =>
      (a = b \/ (is_separator a = true /\ is_separator b = true)) /\
      same_up_to_separators s1' s2'
  | _, _ => False
  end.

(** No character of [code] is a separator. *)
Fixpoint separator_free (code : string) : bool :=
  match code with
  | EmptyString => true
  | String a code' => negb (is_separator a) && separator_free code'
  end.

(** The Windows 10 feature updates written as numbers: number, build. *)
Definition feature_updates : list (DWORD * DWORD) :=
  [ (2004, 19041); (1909, 18363); (1903, 18362); (1809, 17763);
    (1803, 17134); (1709, 16299); (1703, 15063); (1607, 14393);
    (1511, 10586); (1507, 10240) ].

(** The number a string begins with, as a DWORD, and what follows it. *)
Definition number_at (s : string) : option (DWORD * string) :=
  if starts_with_digit s
  then Some (DWORD_value (digit_prefix s), after_digits s)
  else None.

(** The build of a Windows 10 feature update written as a number: the
    build of the table, or the number itself when the table has none. *)
Definition update_build (n : DWORD) : DWORD :=
  match find (fun p => fst p =? n) feature_updates with
  | Some p => snd p
  | None => n
  end.

(** The build that "major separator minor" parses to, for the requested
    major [V1] and the second number [V2]. *)
Definition build_after_minor (V1 V2 : DWORD) : DWORD :=
  if V1 =? 10 then (if 0 <? V2 then update_build V2 else 0)
  else if V1 =? 11 then (if 0 <? V2 then V2 else 22000)
  else 0.

(** Text [ext] appended, after a separator, to a string that ends in its
    major number [V1] lowers the parse: for 7 and 8 when it begins with
    a number of value 0; for 11 when it begins with a number, is no named
    update, and the build it gives (its third number if it has one, else
    its first number when that is not 0) is below 22000. *)
Definition lowers_after_major (V1 : DWORD) (ext : string) : bool :=
  match number_at ext with
  | None => false
  | Some (V, rest) =>
      if (V1 =? 7) || (V1 =? 8) then V =? 0
      else if V1 =? 11 then
        if begins_with "22H2" ext || begins_with "21H2" ext then false
        else
          match rest with
          | String c2 s3 =>
              if is_separator c2 && starts_with_digit s3
              then DWORD_value (digit_prefix s3) <? 22000
              else (0 <? V) && (V <? 22000)
          | EmptyString => (0 <? V) && (V <? 22000)
          end
      else false
  end.

(** Text [ext] appended, after a separator, to a string that ends in its
    second number lowers the parse when it begins with a number below the
    build already parsed. *)
Definition lowers_after_minor (V1 V2 : DWORD) (ext : string) : bool :=
  match number_at ext with
  | None => false
  | Some (V, _) => V <? build_after_minor V1 V2
  end.

(** The text after the platform prefix, [body], ends in its first or in
    its second number, and the appended text [ext] lowers the parse. *)
Definition lowers (body ext : string) : bool :=
  match number_at body with
  | Some (V1, EmptyString) => lowers_after_major V1 ext
  | Some (V1, String c1 s2) =>
      if is_separator c1 then
        match number_at s2 with
        | Some (V2, EmptyString) => lowers_after_minor V1 V2 ext
        | _ => false
        end
      else false
  | None => false
  end.

(** Case analysis on the 256 characters. *)
Ltac each_ascii c := destruct c as [[] [] [] [] [] [] [] []].

(** ** The order on triples *)

Lemma tuple_lt_lex (a b : VersionTuple) : tuple_lt a b = true <-> lex_lt a b.
Proof.
  destruct a as [[a0 a1] a2], b as [[b0 b1] b2]; unfold tuple_lt, lex_lt.
  destruct (Z.ltb_spec a0 b0), (Z.ltb_spec b0 a0),
    (Z.ltb_spec a1 b1), (Z.ltb_spec b1 a1), (Z.ltb_spec a2 b2);
    split; intros; try discriminate; try reflexivity; lia.
Qed.

Lemma tuple_le_lex (a b : VersionTuple) : tuple_le a b = true <-> lex_le a b.
Proof.
  unfold tuple_le, lex_le.
  rewrite negb_true_iff, <- not_true_iff_false, tuple_lt_lex.
  destruct a as [[a0 a1] a2], b as [[b0 b1] b2]; unfold lex_lt.
  split.
  - intros H.
    destruct (Z.eq_dec a0 b0), (Z.eq_dec a1 b1), (Z.eq_dec a2 b2);
      subst; auto; left; lia.
  - intros [H | H]; [lia | injection H; lia].
Qed.

Lemma tuple_le_refl (a : VersionTuple) : tuple_le a a = true.
Proof. apply tuple_le_lex; right; reflexivity. Qed.

Lemma lex_lt_not_le (a b : VersionTuple) : lex_lt a b -> tuple_le b a = false.
Proof.
  intros H. unfold tuple_le. apply negb_false_iff, tuple_lt_lex, H.
Qed.

(** ** Views and prefixes *)

Lemma compare_views_eq (a b : string) : sv.compare_views a b = 0 <-> a = b.
Proof.
  revert b; induction a as [| x a IH]; intros [| y b]; simpl;
    try (split; [discriminate | discriminate]); try tauto.
  destruct (N.compare_spec (N_of_ascii x) (N_of_ascii y)) as [E | L | L].
  - rewrite IH. split.
    + intros ->. f_equal.
      rewrite <- (ascii_N_embedding x), <- (ascii_N_embedding y).
      now rewrite E.
    + intros [= _ ->]. reflexivity.
  - split; [discriminate |]. intros [= -> _]. lia.
  - split; [discriminate |]. intros [= -> _]. lia.
Qed.

Lemma substring_prefix (code s : string) :
  substring 0 (length code) s = code <-> exists r, s = code ++ r.
Proof.
  revert s; induction code as [| a code IH]; intros s; simpl.
  - split; [intros _; now exists s | intros _; now destruct s].
  - destruct s as [| b s]; simpl.
    + split; [discriminate | intros [r [=]]].
    + split.
      * intros [= -> H]. apply IH in H as [r ->]. now exists r.
      * intros [r [= -> ->]]. f_equal. apply IH. now exists r.
Qed.

(** [s.compare(0, n, code) == 0], for [code] of [n] characters, says that
    [s] begins with [code]. *)
Lemma compare_prefix (s code : string) :
  (sv.compare s (length code) code =? 0) = true <-> exists r, s = code ++ r.
Proof.
  unfold sv.compare.
  now rewrite Z.eqb_eq, compare_views_eq, substring_prefix.
Qed.

Lemma compare_prefix_false (s code : string) :
  (sv.compare s (length code) code =? 0) = false <->
  ~ exists r, s = code ++ r.
Proof.
  rewrite <- compare_prefix. now destruct (_ =? _).
Qed.

Lemma begins_with_prefix (code s : string) :
  begins_with code s = true <-> exists r, s = code ++ r.
Proof.
  revert s; induction code as [| a code IH]; intros s; simpl.
  - split; [now exists s | reflexivity].
  - destruct s as [| b s].
    + split; [discriminate | intros [r [=]]].
    + rewrite andb_true_iff, Ascii.eqb_eq, IH. split.
      * intros [-> [r ->]]. now exists r.
      * intros [r [= -> ->]]. split; [reflexivity | now exists r].
Qed.

(** The comparisons of the source, as prefix tests that compute on a text
    whose tail is not known. *)
Lemma compare_begins (s : string) (n : nat) (code : string) :
  n = length code ->
  (sv.compare s n code =? 0) = begins_with code s.
Proof.
  intros ->. apply eq_true_iff_eq.
  now rewrite compare_prefix, begins_with_prefix.
Qed.

Lemma requestedMajor_eq (s : string) :
  detail.requestedMajor s =
  if begins_with "Vista" s || begins_with "vista" s then Some (6, 0, s)
  else if begins_with "XP" s || begins_with "xp" s then Some (5, 1, s)
  else
    let '(ok, s', reqMajor) := detail.extractVersionNumber s 0 in
    if ok then Some (reqMajor, 0, s') else None.
Proof.
  unfold detail.requestedMajor. now rewrite !compare_begins by reflexivity.
Qed.

Lemma namedUpdate_eq (reqMajor : DWORD) (s : string) :
  detail.namedUpdate reqMajor s =
  if (reqMajor =? 11) && begins_with "22H2" s then Some 22621
  else if (reqMajor =? 11) && begins_with "21H2" s then Some 22000
  else if (reqMajor =? 10) && begins_with "22H2" s then Some 19045
  else if (reqMajor =? 10) && begins_with "21H2" s then Some 19044
  else if (reqMajor =? 10) && begins_with "21H1" s then Some 19043
  else if (reqMajor =? 10) && begins_with "20H2" s then Some 19042
  else None.
Proof.
  unfold detail.namedUpdate. now rewrite !compare_begins by reflexivity.
Qed.

Lemma parseWindowsVersion_stripped (body : string) :
  detail.parseWindowsVersion ("Windows " ++ body)
  = Some (detail.parseStripped body).
Proof. reflexivity. Qed.

Lemma parseStripped_eq (body : string) (reqMajor minor : DWORD) (s : string) :
  detail.requestedMajor body = Some (reqMajor, minor, s) ->
  detail.parseStripped body =
  let major := if reqMajor =? 11 then 10
               else if reqMajor =? 8 then 6
               else if reqMajor =? 7 then 6 else reqMajor in
  let minor := if reqMajor =? 8 then 2
               else if reqMajor =? 7 then 1 else minor in
  let build := if reqMajor =? 11 then 22000 else 0 in
  match s with
  | EmptyString => (major, minor, build)
  | String c s' =>
      if is_separator c then
        match detail.namedUpdate reqMajor s' with
        | Some build => detail.parseBuild reqMajor major minor build s'
        | None =>
            let '(ok, s'', minor') := detail.extractVersionNumber s' minor in
            if ok then detail.parseBuild reqMajor major minor' build s''
            else (major, minor', build)
        end
      else (major, minor, build)
  end.
Proof.
  intros H. unfold detail.parseStripped. rewrite H.
  destruct (reqMajor =? 7) eqn:E7, (reqMajor =? 8) eqn:E8,
    (reqMajor =? 11) eqn:E11; cbv zeta beta iota;
    destruct s as [| c s']; try reflexivity;
    unfold detail.no_separator, is_separator;
    destruct (Ascii.eqb c "."), (Ascii.eqb c "_"), (Ascii.eqb c " ");
    simpl negb; simpl andb; simpl orb; cbv iota;
    try reflexivity;
    destruct (detail.namedUpdate reqMajor s'); try reflexivity;
    destruct (detail.extractVersionNumber s' _) as [[ok s''] minor'];
    try reflexivity.
Qed.

(** Where the platform check passes, [s.substr(8)] does not throw. *)
Lemma checkPlatform_parse_defined (s : string) :
  detail.checkPlatform s = true ->
  exists body, detail.parseWindowsVersion s = Some (detail.parseStripped body).
Proof.
  unfold detail.checkPlatform. rewrite orb_true_iff.
  rewrite (compare_prefix s "Windows "), (compare_prefix s "windows ").
  intros [[body ->] | [body ->]]; now exists body.
Qed.

(** ** Sample runs *)

Example extract_19044 :
  detail.extractVersionNumber "19044.1" 0 = (true, ".1", 19044).
Proof. reflexivity. Qed.

Example extract_consumes_a_letter :
  detail.extractVersionNumber "H2" 22 = (false, "2", 22).
Proof. reflexivity. Qed.

Example extract_wraps :
  detail.extractVersionNumber "4294967306" 0 = (true, "", 10).
Proof. reflexivity. Qed.

Example parse_full_build :
  detail.parseWindowsVersion "Windows 6.0.6003" = Some (6, 0, 6003).
Proof. reflexivity. Qed.

Example parse_too_short : detail.parseWindowsVersion "Windows" = None.
Proof. reflexivity. Qed.

Example check_on_windows_10 :
  ___windows_available_check (Some (10, 0, 4026550885)) unpopulated
    "Windows 10 21H2"
  = Some (true, mkSystemVersion 10 0 19045).
Proof. reflexivity. Qed.

(** ** Reference examples *)

(** C1: the parser maps the seven reference version names to the triples
    the specification lists for them. *)
Theorem parse_reference_examples :
  detail.parseWindowsVersion "Windows 7" = Some (6, 1, 0) /\
  detail.parseWindowsVersion "Windows 8.1" = Some (6, 3, 0) /\
  detail.parseWindowsVersion "Windows 11 21H2" = Some (10, 0, 22000) /\
  detail.parseWindowsVersion "Windows 11 22H2" = Some (10, 0, 22621) /\
  detail.parseWindowsVersion "Windows 10 2004" = Some (10, 0, 19041) /\
  detail.parseWindowsVersion "Windows XP" = Some (5, 1, 0) /\
  detail.parseWindowsVersion "Windows Vista" = Some (6, 0, 0).
Proof. repeat split; vm_compute; reflexivity. Qed.

(** ** The version oracle *)

Lemma isVersionAtLeast_live env st st' version :
  loadIfUnpopulated env st = Some st' ->
  _isVersionAtLeast env st version = Some (tuple_le version (tie st'), st').
Proof. unfold _isVersionAtLeast. now intros ->. Qed.

(** C2: "Windows " parses to the sentinel triple (0xFFFFFFFF, 0, 0), and
    the comparison of the sentinel against a live triple whose major is
    below 0xFFFFFFFF returns false. *)
Theorem sentinel_never_satisfied :
  detail.parseWindowsVersion "Windows " = Some detail.makeVersion_invalid /\
  detail.makeVersion_invalid = sentinel /\
  forall env st live,
    loadIfUnpopulated env st = Some live ->
    majorVersion live < DWORD_MAX ->
    _isVersionAtLeast env st sentinel = Some (false, live).
Proof.
  split; [reflexivity | split; [reflexivity |]].
  intros env st live Hlive Hmajor.
  rewrite (isVersionAtLeast_live _ _ _ _ Hlive). f_equal. f_equal.
  apply lex_lt_not_le. unfold tie, sentinel, lex_lt. left. exact Hmajor.
Qed.

Lemma sentinel_never_satisfied_witness :
  _isVersionAtLeast (Some (10, 0, 4026550885)) unpopulated sentinel
  = Some (false, mkSystemVersion 10 0 19045).
Proof.
  apply (proj2 (proj2 sentinel_never_satisfied)).
  - reflexivity.
  - simpl. unfold DWORD_MAX. lia.
Defined.

(** C3: a call on unpopulated globals stores what the OS query reports,
    the build reduced modulo 2^28, and answers against that; a call on
    populated globals leaves them alone; the answer is always whether the
    requested triple is lexicographically at most the stored one. *)
Theorem isVersionAtLeast_spec :
  (forall M m b st version,
      majorVersion st = 0 ->
      _isVersionAtLeast (Some (M, m, b)) st version
      = Some (tuple_le version (M, m, b mod 2 ^ 28),
              mkSystemVersion M m (b mod 2 ^ 28))) /\
  (forall env st version,
      majorVersion st <> 0 ->
      _isVersionAtLeast env st version
      = Some (tuple_le version (tie st), st)) /\
  (forall env st version r st',
      _isVersionAtLeast env st version = Some (r, st') ->
      (r = true <-> lex_le version (tie st'))).
Proof.
  split; [| split].
  - intros M m b st version H0.
    unfold _isVersionAtLeast, loadIfUnpopulated. rewrite H0. simpl.
    change 268435455 with (Z.ones 28). rewrite Z.land_ones by lia.
    reflexivity.
  - intros env st version Hpop.
    apply isVersionAtLeast_live. unfold loadIfUnpopulated.
    apply Z.eqb_neq in Hpop. now rewrite Hpop.
  - intros env st version r st'. unfold _isVersionAtLeast.
    destruct (loadIfUnpopulated env st) as [st1 |]; [| discriminate].
    intros [= <- <-]. apply tuple_le_lex.
Qed.

Lemma isVersionAtLeast_spec_witness :
  _isVersionAtLeast (Some (10, 0, 4026550885)) unpopulated (10, 0, 19041)
  = Some (tuple_le (10, 0, 19041) (10, 0, 4026550885 mod 2 ^ 28),
          mkSystemVersion 10 0 (4026550885 mod 2 ^ 28)) /\
  _isVersionAtLeast None (mkSystemVersion 6 1 7601) (6, 2, 0)
  = Some (tuple_le (6, 2, 0) (tie (mkSystemVersion 6 1 7601)),
          mkSystemVersion 6 1 7601).
Proof.
  split.
  - apply (proj1 isVersionAtLeast_spec 10 0 4026550885 unpopulated).
    reflexivity.
  - apply (proj1 (proj2 isVersionAtLeast_spec) None (mkSystemVersion 6 1 7601)).
    simpl. lia.
Defined.

(** C4: when the live triple is A and A is lexicographically below B, the
    check of B returns false and the check of A returns true. *)
Theorem isVersionAtLeast_monotone :
  forall env st live (A B : VersionTuple),
    loadIfUnpopulated env st = Some live ->
    tie live = A ->
    lex_lt A B ->
    _isVersionAtLeast env st B = Some (false, live) /\
    _isVersionAtLeast env st A = Some (true, live).
Proof.
  intros env st live A B Hlive <- Hlt.
  rewrite !(isVersionAtLeast_live _ _ _ _ Hlive).
  now rewrite (lex_lt_not_le _ _ Hlt), tuple_le_refl.
Qed.

Lemma isVersionAtLeast_monotone_witness :
  _isVersionAtLeast (Some (10, 0, 19045)) unpopulated (10, 0, 22000)
  = Some (false, mkSystemVersion 10 0 19045) /\
  _isVersionAtLeast (Some (10, 0, 19045)) unpopulated (10, 0, 19045)
  = Some (true, mkSystemVersion 10 0 19045).
Proof.
  apply (isVersionAtLeast_monotone (Some (10, 0, 19045)) unpopulated
           (mkSystemVersion 10 0 19045) (10, 0, 19045) (10, 0, 22000)).
  - reflexivity.
  - reflexivity.
  - simpl. lia.
Defined.

(** ** The platform matcher *)

(** C5: [checkPlatform] holds exactly of the strings that begin with
    "Windows " or "windows ", and where it fails the availability check
    returns false whatever the live version is, without touching it. *)
Theorem checkPlatform_spec :
  (forall s,
      detail.checkPlatform s = true <->
      (exists r, s = "Windows " ++ r) \/ (exists r, s = "windows " ++ r)) /\
  (forall env st s,
      detail.checkPlatform s = false ->
      ___windows_available_check env st s = Some (false, st)).
Proof.
  split.
  - intros s. unfold detail.checkPlatform. rewrite orb_true_iff.
    now rewrite (compare_prefix s "Windows "), (compare_prefix s "windows ").
  - intros env st s H. unfold ___windows_available_check. now rewrite H.
Qed.

Lemma checkPlatform_spec_witness :
  ___windows_available_check (Some (10, 0, 19045)) unpopulated "macOS 10.15"
  = Some (false, unpopulated).
Proof.
  apply (proj2 checkPlatform_spec). reflexivity.
Defined.

(** ** The integer extraction primitive *)

Lemma not_digit_spec (c : ascii) :
  detail.not_digit c = negb (is_decimal_digit c).
Proof. each_ascii c; reflexivity. Qed.

Lemma digit_of_spec (c : ascii) :
  is_decimal_digit c = true ->
  detail.digit_of c = Z.of_N (N_of_ascii c) - 48.
Proof. each_ascii c; intros H; try discriminate H; reflexivity. Qed.

Lemma digit_of_first (c : ascii) :
  is_decimal_digit c = true ->
  detail.digit_of c = to_DWORD (0 * 10 + (Z.of_N (N_of_ascii c) - 48)).
Proof. each_ascii c; intros H; try discriminate H; reflexivity. Qed.

Lemma to_DWORD_range (z : Z) : 0 <= to_DWORD z < 2 ^ 32.
Proof. unfold to_DWORD. apply Z.mod_pos_bound. lia. Qed.

Lemma to_DWORD_step (x d : Z) :
  to_DWORD (to_DWORD (to_DWORD x * 10) + d) = to_DWORD (x * 10 + d).
Proof.
  unfold to_DWORD.
  rewrite Z.add_mod_idemp_l by lia.
  rewrite <- (Z.add_mod_idemp_l (x * 10)) by lia.
  rewrite <- (Z.add_mod_idemp_l (x mod 2 ^ 32 * 10)) by lia.
  now rewrite Z.mul_mod_idemp_l by lia.
Qed.

(** The loop consumes a digit run up to a character that is not a digit,
    and accumulates its value modulo 2^32. *)
Lemma extract_loop_digits (ds rest : string) :
  all_digits ds = true ->
  starts_with_digit rest = false ->
  forall x,
    detail.extract_loop (ds ++ rest) (to_DWORD x)
    = (rest, to_DWORD (decimal_from x ds)).
Proof.
  intros Hds Hrest. induction ds as [| c ds IH]; intros x; simpl.
  - destruct rest as [| c r]; [reflexivity |].
    simpl in *. now rewrite not_digit_spec, Hrest.
  - simpl in Hds. apply andb_true_iff in Hds as [Hc Hds].
    rewrite not_digit_spec, Hc. simpl.
    rewrite (digit_of_spec c Hc), to_DWORD_step. now apply IH.
Qed.

Lemma extractVersionNumber_digits (ds rest : string) (v : DWORD) :
  ds <> "" ->
  all_digits ds = true ->
  starts_with_digit rest = false ->
  detail.extractVersionNumber (ds ++ rest) v
  = (true, rest, decimal_value ds mod 2 ^ 32).
Proof.
  intros Hne Hds Hrest. destruct ds as [| c ds]; [congruence |].
  simpl in Hds. apply andb_true_iff in Hds as [Hc Hds]. simpl.
  rewrite not_digit_spec, Hc. simpl.
  rewrite (digit_of_first c Hc).
  now rewrite (extract_loop_digits ds rest Hds Hrest).
Qed.

(** C9: on a cursor that begins with a digit the primitive returns true,
    leaves the cursor just after the maximal digit run and stores the
    decimal value of the run modulo 2^32; on an empty cursor or one whose
    first character is not a digit it returns false. *)
Theorem extractVersionNumber_spec :
  (forall ds rest v,
      ds <> "" ->
      all_digits ds = true ->
      starts_with_digit rest = false ->
      detail.extractVersionNumber (ds ++ rest) v
      = (true, rest, decimal_value ds mod 2 ^ 32)) /\
  (forall v, detail.extractVersionNumber "" v = (false, "", v)) /\
  (forall c s v,
      is_decimal_digit c = false ->
      detail.extractVersionNumber (String c s) v = (false, s, v)).
Proof.
  split; [| split].
  - intros ds rest v. apply extractVersionNumber_digits.
  - reflexivity.
  - intros c s v Hc. simpl. now rewrite not_digit_spec, Hc.
Qed.

Lemma extractVersionNumber_spec_witness :
  detail.extractVersionNumber ("4294967297" ++ ".19044") 7
  = (true, ".19044", decimal_value "4294967297" mod 2 ^ 32) /\
  detail.extractVersionNumber (String "H" "2") 7 = (false, "2", 7).
Proof.
  split.
  - apply (proj1 extractVersionNumber_spec "4294967297" ".19044" 7).
    + discriminate.
    + reflexivity.
    + reflexivity.
  - apply (proj2 (proj2 extractVersionNumber_spec) "H"%char "2" 7).
    reflexivity.
Defined.

(** ** Historical aliases *)

Lemma to_lower_inv (c d : ascii) :
  to_lower c = d -> c = d \/ c = ascii_of_N (N_of_ascii d - 32).
Proof.
  each_ascii c; intros <-; first [left; reflexivity | right; reflexivity].
Qed.

(** The capitalizations of a word, one character at a time. *)
Ltac capitalizations H :=
  repeat match type of H with
    | lowercase ?t = _ =>
        destruct t; simpl in H; try discriminate H;
        let Hc := fresh "Hc" in
        injection H as Hc H;
        apply to_lower_inv in Hc as [-> | ->]
    end;
  match type of H with
  | lowercase ?t = _ => destruct t; [| discriminate H]
  end.

Lemma other_capitalizations_of_Vista (t rest : string) :
  lowercase t = lowercase "Vista" ->
  t <> "Vista" -> t <> "vista" ->
  detail.parseWindowsVersion ("Windows " ++ t ++ rest) = Some sentinel.
Proof.
  intros H H1 H2.
  change (lowercase "Vista") with "vista" in H.
  capitalizations H;
    first [ exfalso; apply H1; reflexivity
          | exfalso; apply H2; reflexivity
          | reflexivity ].
Qed.

Lemma other_capitalizations_of_XP (t rest : string) :
  lowercase t = lowercase "XP" ->
  t <> "XP" -> t <> "xp" ->
  detail.parseWindowsVersion ("Windows " ++ t ++ rest) = Some sentinel.
Proof.
  intros H H1 H2.
  change (lowercase "XP") with "xp" in H.
  capitalizations H;
    first [ exfalso; apply H1; reflexivity
          | exfalso; apply H2; reflexivity
          | reflexivity ].
Qed.

(** C6, as stated, fails: "VISTA" and "Xp" are capitalizations of the two
    alias names, and both parse to the sentinel triple. *)
Lemma alias_case_insensitive_counterexample :
  lowercase "VISTA" = lowercase "Vista" /\
  detail.requestedMajor "VISTA" = None /\
  detail.parseWindowsVersion "Windows VISTA" = Some (DWORD_MAX, 0, 0) /\
  lowercase "Xp" = lowercase "XP" /\
  detail.requestedMajor "Xp" = None /\
  detail.parseWindowsVersion "Windows Xp" = Some (DWORD_MAX, 0, 0).
Proof. repeat split. Qed.

(** C6, amended: the aliases are recognized in two spellings each,
    "Vista"/"vista" (requested major 6) and "XP"/"xp" (requested major 5,
    minor 1), at the start of the stripped text and with the cursor left
    where it was, so before any digit is read; every other capitalization
    of the two names parses to the sentinel triple. *)
Theorem alias_recognition :
  (forall rest,
      detail.requestedMajor ("Vista" ++ rest) = Some (6, 0, "Vista" ++ rest) /\
      detail.requestedMajor ("vista" ++ rest) = Some (6, 0, "vista" ++ rest) /\
      detail.requestedMajor ("XP" ++ rest) = Some (5, 1, "XP" ++ rest) /\
      detail.requestedMajor ("xp" ++ rest) = Some (5, 1, "xp" ++ rest)) /\
  (forall rest,
      detail.parseWindowsVersion ("Windows Vista" ++ rest) = Some (6, 0, 0) /\
      detail.parseWindowsVersion ("Windows vista" ++ rest) = Some (6, 0, 0) /\
      detail.parseWindowsVersion ("Windows XP" ++ rest) = Some (5, 1, 0) /\
      detail.parseWindowsVersion ("Windows xp" ++ rest) = Some (5, 1, 0)) /\
  (forall t rest,
      lowercase t = lowercase "Vista" ->
      t <> "Vista" -> t <> "vista" ->
      detail.parseWindowsVersion ("Windows " ++ t ++ rest) = Some sentinel) /\
  (forall t rest,
      lowercase t = lowercase "XP" ->
      t <> "XP" -> t <> "xp" ->
      detail.parseWindowsVersion ("Windows " ++ t ++ rest) = Some sentinel).
Proof.
  split; [| split; [| split]].
  - intros rest. rewrite !requestedMajor_eq. repeat split.
  - intros rest.
    change ("Windows Vista" ++ rest) with ("Windows " ++ ("Vista" ++ rest)).
    change ("Windows vista" ++ rest) with ("Windows " ++ ("vista" ++ rest)).
    change ("Windows XP" ++ rest) with ("Windows " ++ ("XP" ++ rest)).
    change ("Windows xp" ++ rest) with ("Windows " ++ ("xp" ++ rest)).
    rewrite !parseWindowsVersion_stripped. unfold detail.parseStripped.
    rewrite !requestedMajor_eq. repeat split.
  - exact other_capitalizations_of_Vista.
  - exact other_capitalizations_of_XP.
Qed.

Lemma alias_recognition_witness :
  detail.parseWindowsVersion ("Windows " ++ "viSTA" ++ " SP2") = Some sentinel /\
  detail.parseWindowsVersion ("Windows " ++ "xP" ++ "") = Some sentinel.
Proof.
  split.
  - apply (proj1 (proj2 (proj2 alias_recognition)) "viSTA" " SP2").
    + reflexivity.
    + discriminate.
    + discriminate.
  - apply (proj2 (proj2 (proj2 alias_recognition)) "xP" "").
    + reflexivity.
    + discriminate.
    + discriminate.
Defined.

(** ** Named feature updates *)

Lemma is_separator_cases (c : ascii) :
  is_separator c = true -> c = "."%char \/ c = "_"%char \/ c = " "%char.
Proof.
  unfold is_separator. rewrite !orb_true_iff, !Ascii.eqb_eq. tauto.
Qed.

Lemma requestedMajor_10 (c : ascii) (s : string) :
  is_separator c = true ->
  detail.requestedMajor ("10" ++ String c s) = Some (10, 0, String c s).
Proof.
  intros Hc. apply is_separator_cases in Hc. rewrite requestedMajor_eq.
  destruct Hc as [-> | [-> | ->]]; reflexivity.
Qed.

Lemma requestedMajor_11 (c : ascii) (s : string) :
  is_separator c = true ->
  detail.requestedMajor ("11" ++ String c s) = Some (11, 0, String c s).
Proof.
  intros Hc. apply is_separator_cases in Hc. rewrite requestedMajor_eq.
  destruct Hc as [-> | [-> | ->]]; reflexivity.
Qed.

(** The parse of "Windows 10" and of "Windows 11" followed by a separator,
    up to the second component. *)
Lemma parse_10_sep (c : ascii) (s : string) :
  is_separator c = true ->
  detail.parseWindowsVersion ("Windows 10" ++ String c s)
  = Some match detail.namedUpdate 10 s with
         | Some build => detail.parseBuild 10 10 0 build s
         | None =>
             let '(ok, s', minor) := detail.extractVersionNumber s 0 in
             if ok then detail.parseBuild 10 10 minor 0 s'
             else (10, minor, 0)
         end.
Proof.
  intros Hc.
  change ("Windows 10" ++ String c s) with ("Windows " ++ ("10" ++ String c s)).
  rewrite parseWindowsVersion_stripped. f_equal.
  rewrite (parseStripped_eq _ 10 0 (String c s)) by now apply requestedMajor_10.
  cbv zeta. now rewrite Hc.
Qed.

Lemma parse_11_sep (c : ascii) (s : string) :
  is_separator c = true ->
  detail.parseWindowsVersion ("Windows 11" ++ String c s)
  = Some match detail.namedUpdate 11 s with
         | Some build => detail.parseBuild 11 10 0 build s
         | None =>
             let '(ok, s', minor) := detail.extractVersionNumber s 0 in
             if ok then detail.parseBuild 11 10 minor 22000 s'
             else (10, minor, 22000)
         end.
Proof.
  intros Hc.
  change ("Windows 11" ++ String c s) with ("Windows " ++ ("11" ++ String c s)).
  rewrite parseWindowsVersion_stripped. f_equal.
  rewrite (parseStripped_eq _ 11 0 (String c s)) by now apply requestedMajor_11.
  cbv zeta. now rewrite Hc.
Qed.

Lemma namedUpdate_table (r : DWORD) (s : string) (b : DWORD) :
  detail.namedUpdate r s = Some b <->
  exists code rest, s = code ++ rest /\ In (r, code, b) named_updates.
Proof.
  rewrite namedUpdate_eq. split.
  - destruct (r =? 11) eqn:E11, (r =? 10) eqn:E10; cbn [andb];
      try apply Z.eqb_eq in E11; try apply Z.eqb_eq in E10;
      try (exfalso; lia);
      repeat match goal with
        | |- context [if begins_with ?code s then _ else _] =>
            let B := fresh "B" in
            destruct (begins_with code s) eqn:B;
            [ apply begins_with_prefix in B as [rest ->];
              intros [= <-]; exists code, rest; subst r; simpl; tauto | ]
        end;
      discriminate.
  - intros (code & rest & -> & Hin). simpl in Hin.
    repeat destruct Hin as [[= <- <- <-] | Hin]; try reflexivity.
    destruct Hin.
Qed.

(** C7, as stated, fails: the update field "22H2abc" is none of the codes,
    and is parsed as the named update 22H2 all the same. *)
Lemma named_update_exact_counterexample :
  ~ In "22H2abc" ["22H2"; "21H2"; "21H1"; "20H2"] /\
  detail.namedUpdate 10 "22H2abc" = Some 19045 /\
  detail.parseWindowsVersion "Windows 10 22H2abc" = Some (10, 0, 19045).
Proof.
  split; [| split; reflexivity].
  simpl. intros [H | [H | [H | [H | []]]]]; discriminate H.
Qed.

(** C7, amended: after the requested major number and one separator, a
    named update is taken exactly when the text that follows begins with
    one of the codes listed for that requested major (11: 22H2, 21H2;
    10: 22H2, 21H2, 21H1, 20H2), compared case-sensitively on its first
    four characters; the result is then (10, 0, build of the code) and
    no minor number is read; otherwise the minor number is read. *)
Theorem named_update_codes :
  (forall r s b,
      detail.namedUpdate r s = Some b <->
      exists code rest, s = code ++ rest /\ In (r, code, b) named_updates) /\
  (forall code b c rest,
      In (10, code, b) named_updates ->
      is_separator c = true ->
      detail.parseWindowsVersion ("Windows 10" ++ String c (code ++ rest))
      = Some (10, 0, b)) /\
  (forall code b c rest,
      In (11, code, b) named_updates ->
      is_separator c = true ->
      detail.parseWindowsVersion ("Windows 11" ++ String c (code ++ rest))
      = Some (10, 0, b)) /\
  (forall c s,
      is_separator c = true ->
      detail.namedUpdate 10 s = None ->
      detail.parseWindowsVersion ("Windows 10" ++ String c s)
      = Some (let '(ok, s', minor) := detail.extractVersionNumber s 0 in
              if ok then detail.parseBuild 10 10 minor 0 s'
              else (10, minor, 0))) /\
  (forall c s,
      is_separator c = true ->
      detail.namedUpdate 11 s = None ->
      detail.parseWindowsVersion ("Windows 11" ++ String c s)
      = Some (let '(ok, s', minor) := detail.extractVersionNumber s 0 in
              if ok then detail.parseBuild 11 10 minor 22000 s'
              else (10, minor, 22000))) /\
  detail.namedUpdate 10 "22h2" = None /\
  detail.namedUpdate 11 "21H1" = None.
Proof.
  split; [exact namedUpdate_table |].
  split; [| split; [| split; [| split; [| split; reflexivity]]]].
  - intros code b c rest Hin Hc.
    rewrite (parse_10_sep c _ Hc), namedUpdate_eq. simpl in Hin.
    repeat destruct Hin as [[= <- <-] | Hin]; try discriminate;
      try reflexivity.
    destruct Hin.
  - intros code b c rest Hin Hc.
    rewrite (parse_11_sep c _ Hc), namedUpdate_eq. simpl in Hin.
    repeat destruct Hin as [[= <- <-] | Hin]; try discriminate;
      try reflexivity.
    destruct Hin.
  - intros c s Hc Hnone. now rewrite (parse_10_sep c _ Hc), Hnone.
  - intros c s Hc Hnone. now rewrite (parse_11_sep c _ Hc), Hnone.
Qed.

Lemma named_update_codes_witness :
  detail.parseWindowsVersion ("Windows 10" ++ String "_" ("21H1" ++ ".7"))
  = Some (10, 0, 19043) /\
  detail.parseWindowsVersion ("Windows 11" ++ String " " "21H1")
  = Some (let '(ok, s', minor) := detail.extractVersionNumber "21H1" 0 in
          if ok then detail.parseBuild 11 10 minor 22000 s'
          else (10, minor, 22000)).
Proof.
  split.
  - apply (proj1 (proj2 named_update_codes) "21H1" 19043 "_"%char ".7").
    + simpl. tauto.
    + reflexivity.
  - apply (proj1 (proj2 (proj2 (proj2 (proj2 named_update_codes))))
             " "%char "21H1").
    + reflexivity.
    + reflexivity.
Defined.

(** ** A number after "Windows 11" *)

Lemma parseBuild_as_build (r n : DWORD) (rest : string) :
  r <> 8 -> r <> 10 ->
  0 < n ->
  detail.no_separator rest = true ->
  forall build, detail.parseBuild r 10 n build rest = (10, 0, n).
Proof.
  intros N8 N10 Hn Hrest build. unfold detail.parseBuild.
  apply Z.eqb_neq in N8, N10. rewrite N8. cbn [andb].
  assert (Hpos : (n >? 0) = true) by (apply Z.gtb_lt; lia).
  rewrite Hpos. change (10 =? 10) with true. cbn [andb].
  unfold detail.buildOfMinor. rewrite N10. cbn [andb].
  now rewrite Hrest.
Qed.

(** C10, as stated, fails: "22H2" is a digit run of value 22 followed by
    a character that is no separator, and "Windows 11 22H2" parses to
    build 22621; a digit run of value 2^32 leaves the build at 22000. *)
Lemma windows_11_number_counterexample :
  (is_separator " " = true /\
   all_digits "22" = true /\
   starts_with_digit "H2" = false /\
   detail.no_separator "H2" = true /\
   0 < decimal_value "22" /\
   detail.parseWindowsVersion ("Windows 11" ++ String " " ("22" ++ "H2"))
   = Some (10, 0, 22621) /\
   (10, 0, 22621) <> (10, 0, decimal_value "22")) /\
  (is_separator "." = true /\
   all_digits "4294967296" = true /\
   starts_with_digit "" = false /\
   detail.no_separator "" = true /\
   0 < decimal_value "4294967296" /\
   detail.parseWindowsVersion ("Windows 11" ++ String "." ("4294967296" ++ ""))
   = Some (10, 0, 22000) /\
   (10, 0, 22000) <> (10, 0, decimal_value "4294967296")).
Proof.
  repeat split; try discriminate.
Qed.

(** C10, amended: "Windows 11", one separator, then a maximal digit run
    whose value modulo 2^32 is n > 0, with no separator after the run and
    with the text after the separator beginning with neither 22H2 nor 21H2,
    parses to (10, 0, n): the number replaces the build 22000.  So
    "Windows 11.1" and "Windows 11 21H1" parse below "Windows 11". *)
Theorem windows_11_number_overwrites_build :
  (forall c ds rest,
      is_separator c = true ->
      ds <> "" ->
      all_digits ds = true ->
      starts_with_digit rest = false ->
      detail.no_separator rest = true ->
      begins_with "22H2" (ds ++ rest) = false ->
      begins_with "21H2" (ds ++ rest) = false ->
      0 < decimal_value ds mod 2 ^ 32 ->
      detail.parseWindowsVersion ("Windows 11" ++ String c (ds ++ rest))
      = Some (10, 0, decimal_value ds mod 2 ^ 32)) /\
  detail.parseWindowsVersion "Windows 11" = Some (10, 0, 22000) /\
  detail.parseWindowsVersion "Windows 11.1" = Some (10, 0, 1) /\
  detail.parseWindowsVersion "Windows 11 21H1" = Some (10, 0, 21) /\
  lex_lt (10, 0, 1) (10, 0, 22000) /\
  lex_lt (10, 0, 21) (10, 0, 22000).
Proof.
  split; [| repeat split; simpl; lia].
  intros c ds rest Hc Hne Hds Hrest Hsep H22 H21 Hn.
  rewrite (parse_11_sep c _ Hc), namedUpdate_eq, H22, H21.
  cbn [andb Z.eqb Pos.eqb].
  rewrite (extractVersionNumber_digits ds rest 0 Hne Hds Hrest).
  f_equal. apply parseBuild_as_build; [lia | lia | exact Hn | exact Hsep].
Qed.

Lemma windows_11_number_overwrites_build_witness :
  detail.parseWindowsVersion ("Windows 11" ++ String "_" ("21996" ++ "-rc"))
  = Some (10, 0, decimal_value "21996" mod 2 ^ 32).
Proof.
  apply (proj1 windows_11_number_overwrites_build "_"%char "21996" "-rc");
    try reflexivity.
  discriminate.
Defined.

(** ** Truncated version strings *)

Lemma substr_app (s t : string) (n : nat) (body : string) :
  sv.substr s n = Some body -> sv.substr (s ++ t) n = Some (body ++ t).
Proof.
  revert s; induction n as [| n IH]; intros s; simpl.
  - now intros [= ->].
  - destruct s as [| a s]; [discriminate | apply IH].
Qed.

Lemma begins_with_app (c : ascii) (code : string) :
  free_of c code = true ->
  forall s ext, begins_with code (s ++ String c ext) = begins_with code s.
Proof.
  induction code as [| a code IH]; intros Hfree s ext; [reflexivity |].
  simpl in Hfree. apply andb_true_iff in Hfree as [Ha Hfree].
  destruct s as [| b s]; simpl.
  - apply negb_true_iff in Ha. now rewrite Ha.
  - now rewrite IH.
Qed.

Lemma separator_not_digit (c : ascii) :
  is_separator c = true -> detail.not_digit c = true.
Proof. intros H. apply is_separator_cases in H as [-> | [-> | ->]]; reflexivity. Qed.

Lemma no_separator_cons (c : ascii) (s : string) :
  detail.no_separator (String c s) = negb (is_separator c).
Proof.
  unfold detail.no_separator, is_separator.
  now destruct (Ascii.eqb c "."), (Ascii.eqb c "_"), (Ascii.eqb c " ").
Qed.

Section Extension.

(** The text appended to a version string: a character that is not a
    digit, then anything. *)
Variables (c : ascii) (ext : string).
Hypothesis c_not_digit : detail.not_digit c = true.

Lemma extract_loop_app (s : string) (v : DWORD) :
  detail.extract_loop (s ++ String c ext) v
  = (fst (detail.extract_loop s v) ++ String c ext, snd (detail.extract_loop s v)).
Proof.
  revert v; induction s as [| a s IH]; intros v; simpl.
  - now rewrite c_not_digit.
  - destruct (detail.not_digit a); [reflexivity | apply IH].
Qed.

(** Appending the text changes neither the outcome nor the value of an
    extraction, and a successful one stops in front of it. *)
Lemma extractVersionNumber_app (s : string) (v : DWORD) :
  exists s2,
    detail.extractVersionNumber (s ++ String c ext) v
    = (fst (fst (detail.extractVersionNumber s v)), s2,
       snd (detail.extractVersionNumber s v)) /\
    (fst (fst (detail.extractVersionNumber s v)) = true ->
     s2 = snd (fst (detail.extractVersionNumber s v)) ++ String c ext).
Proof.
  destruct s as [| a s]; simpl.
  - rewrite c_not_digit. exists ext. split; [reflexivity | discriminate].
  - destruct (detail.not_digit a).
    + exists (s ++ String c ext). split; [reflexivity | discriminate].
    + rewrite extract_loop_app.
      destruct (detail.extract_loop s (detail.digit_of a)) as [s' v'].
      exists (s' ++ String c ext). split; reflexivity.
Qed.

End Extension.

Lemma extract_loop_nonneg (s : string) (v : DWORD) :
  0 <= v -> 0 <= snd (detail.extract_loop s v).
Proof.
  revert v; induction s as [| a s IH]; intros v Hv; simpl; [exact Hv |].
  destruct (detail.not_digit a); [exact Hv |].
  apply IH, to_DWORD_range.
Qed.

Lemma extractVersionNumber_nonneg (s : string) (v : DWORD) :
  0 <= v -> 0 <= snd (detail.extractVersionNumber s v).
Proof.
  intros Hv. destruct s as [| a s]; simpl; [exact Hv |].
  destruct (detail.not_digit a); [exact Hv |].
  pose proof (extract_loop_nonneg s (detail.digit_of a)) as H.
  destruct (detail.extract_loop s (detail.digit_of a)) as [s' v'].
  apply H. unfold detail.digit_of. apply to_DWORD_range.
Qed.

Lemma requestedMajor_app (body : string) (r m : DWORD) (s : string)
  (c : ascii) (ext : string) :
  is_separator c = true ->
  detail.requestedMajor body = Some (r, m, s) ->
  detail.requestedMajor (body ++ String c ext) = Some (r, m, s ++ String c ext).
Proof.
  intros Hc. rewrite !requestedMajor_eq.
  assert (Hfree : forall code,
             In code ["Vista"; "vista"; "XP"; "xp"] -> free_of c code = true).
  { intros code Hin. apply is_separator_cases in Hc. simpl in Hin.
    destruct Hc as [-> | [-> | ->]];
      repeat destruct Hin as [<- | Hin]; try reflexivity; destruct Hin. }
  rewrite !begins_with_app by (apply Hfree; simpl; tauto).
  destruct (begins_with "Vista" body || begins_with "vista" body);
    [now intros [= <- <- <-] |].
  destruct (begins_with "XP" body || begins_with "xp" body);
    [now intros [= <- <- <-] |].
  destruct (extractVersionNumber_app c ext (separator_not_digit c Hc) body 0)
    as (s2 & -> & Hs2).
  destruct (detail.extractVersionNumber body 0) as [[ok s'] v]. simpl in *.
  destruct ok; [| discriminate].
  intros [= <- <- <-]. now rewrite Hs2.
Qed.

Lemma namedUpdate_other (r : DWORD) (s : string) :
  r <> 10 -> r <> 11 -> detail.namedUpdate r s = None.
Proof.
  intros N10 N11. apply Z.eqb_neq in N10, N11.
  unfold detail.namedUpdate. now rewrite N10, N11.
Qed.

Lemma tuple_le_later (M m b m' b' : DWORD) :
  m < m' \/ (m = m' /\ b <= b') ->
  tuple_le (M, m, b) (M, m', b') = true.
Proof.
  intros H. apply tuple_le_lex. unfold lex_le, lex_lt.
  destruct (Z.eq_dec b b'), (Z.eq_dec m m'); subst; auto; left; lia.
Qed.

Lemma buildOfMinor_nonneg (r m : DWORD) :
  0 <= m -> 0 <= detail.buildOfMinor r m.
Proof.
  intros Hm. unfold detail.buildOfMinor.
  repeat match goal with
    | |- context [if ?b then _ else _] => destruct b; [lia |]
    end.
  exact Hm.
Qed.

(** The third group of statements keeps the major number and yields no
    negative component. *)
Lemma parseBuild_shape (r M m b : DWORD) (s : string) :
  0 <= m -> 0 <= b ->
  exists m' b',
    detail.parseBuild r M m b s = (M, m', b') /\ 0 <= m' /\ 0 <= b'.
Proof.
  intros Hm Hb. unfold detail.parseBuild.
  set (m1 := if (r =? 8) && (m =? 1) then 3 else m).
  assert (Hm1 : 0 <= m1) by (subst m1; destruct ((r =? 8) && (m =? 1)); lia).
  pose proof (buildOfMinor_nonneg r m1 Hm1) as Hb1.
  destruct ((M =? 10) && (m1 >? 0));
    (destruct (detail.no_separator s); [eexists _, _; split; [reflexivity | lia] |]);
    (destruct s as [| d s']; [eexists _, _; split; [reflexivity | lia] |]).
  - pose proof (extractVersionNumber_nonneg s' _ Hb1) as Hx.
    destruct (detail.extractVersionNumber s' _) as [[ok s''] b'].
    simpl in Hx. destruct ok; eexists _, _; (split; [reflexivity | lia]).
  - pose proof (extractVersionNumber_nonneg s' _ Hb) as Hx.
    destruct (detail.extractVersionNumber s' _) as [[ok s''] b'].
    simpl in Hx. destruct ok; eexists _, _; (split; [reflexivity | lia]).
Qed.

(** C8, as stated, fails: a component appended after "Windows 11",
    "Windows 10.5", "Windows 8" or "Windows 7" can lower the parse. *)
Lemma truncated_parse_counterexample :
  (extends_by_components "Windows 11" "Windows 11.1" /\
   detail.parseWindowsVersion "Windows 11" = Some (10, 0, 22000) /\
   detail.parseWindowsVersion "Windows 11.1" = Some (10, 0, 1) /\
   (10, 0, 1) <> sentinel /\
   tuple_le (10, 0, 22000) (10, 0, 1) = false) /\
  (extends_by_components "Windows 10.5" "Windows 10.5.3" /\
   detail.parseWindowsVersion "Windows 10.5" = Some (10, 0, 5) /\
   detail.parseWindowsVersion "Windows 10.5.3" = Some (10, 0, 3) /\
   (10, 0, 3) <> sentinel /\
   tuple_le (10, 0, 5) (10, 0, 3) = false) /\
  (extends_by_components "Windows 8" "Windows 8.0" /\
   detail.parseWindowsVersion "Windows 8" = Some (6, 2, 0) /\
   detail.parseWindowsVersion "Windows 8.0" = Some (6, 0, 0) /\
   (6, 0, 0) <> sentinel /\
   tuple_le (6, 2, 0) (6, 0, 0) = false) /\
  (extends_by_components "Windows 7" "Windows 7.0" /\
   detail.parseWindowsVersion "Windows 7" = Some (6, 1, 0) /\
   detail.parseWindowsVersion "Windows 7.0" = Some (6, 0, 0) /\
   (6, 0, 0) <> sentinel /\
   tuple_le (6, 1, 0) (6, 0, 0) = false).
Proof.
  repeat split; try discriminate.
  - now exists "."%char, "1".
  - now exists "."%char, "3".
  - now exists "."%char, "0".
  - now exists "."%char, "0".
Qed.

(** ** Lists of version strings *)

Lemma or_else_false (a : option (bool * SystemVersion)) :
  or_else a (fun st => Some (false, st)) = a.
Proof. now destruct a as [[[] st] |]. Qed.

Lemma or_else_ext (a : option (bool * SystemVersion))
  (f g : SystemVersion -> option (bool * SystemVersion)) :
  (forall st, f st = g st) -> or_else a f = or_else a g.
Proof. intros H. destruct a as [[[] st] |]; simpl; auto. Qed.

Lemma windows_available_list (env : Ntdll) (st : SystemVersion)
  (a : VersionList) :
  ___windows_available env st a = any_available env st (version_strings a).
Proof.
  destruct a; cbn [___windows_available version_strings any_available];
    unfold ___windows_available_helper_5, ___windows_available_helper_4,
      ___windows_available_helper_3, ___windows_available_helper_2,
      ___windows_available_helper_1;
    repeat (apply or_else_ext; intro);
    symmetry; apply or_else_false.
Qed.

Lemma loadIfUnpopulated_again (env : Ntdll) (st live : SystemVersion) :
  loadIfUnpopulated env st = Some live ->
  loadIfUnpopulated env live = Some live.
Proof.
  unfold loadIfUnpopulated.
  destruct (majorVersion st =? 0) eqn:E.
  - destruct (majorVersion live =? 0); [| reflexivity].
    destruct env as [[[M m] b] |]; [| discriminate]. simpl.
    now intros [= <-].
  - intros [= <-]. now rewrite E.
Qed.

Lemma check_on_live (env : Ntdll) (st live : SystemVersion) (x : string) :
  loadIfUnpopulated env st = Some live ->
  ___windows_available_check env st x
  = Some (satisfied_by live x, if detail.checkPlatform x then live else st).
Proof.
  intros Hlive. unfold ___windows_available_check, satisfied_by.
  destruct (detail.checkPlatform x) eqn:Hp; [| reflexivity].
  destruct (checkPlatform_parse_defined x Hp) as [body ->].
  now rewrite (isVersionAtLeast_live _ _ _ _ Hlive).
Qed.

Lemma any_available_on_live (env : Ntdll) (xs : list string) :
  forall st live,
    loadIfUnpopulated env st = Some live ->
    exists st',
      any_available env st xs = Some (existsb (satisfied_by live) xs, st') /\
      (st' = st \/ st' = live).
Proof.
  induction xs as [| x xs IH]; intros st live Hlive; simpl.
  - exists st. split; [reflexivity | now left].
  - rewrite (check_on_live env st live x Hlive).
    destruct (satisfied_by live x) eqn:Hx; simpl.
    + eexists. split; [reflexivity |].
      unfold satisfied_by in Hx. apply andb_true_iff in Hx as [-> _].
      now right.
    + destruct (detail.checkPlatform x).
      * destruct (IH live live (loadIfUnpopulated_again _ _ _ Hlive))
          as (st' & -> & Hst').
        exists st'. split; [reflexivity | right; tauto].
      * destruct (IH st live Hlive) as (st' & -> & Hst').
        exists st'. split; [reflexivity | exact Hst'].
Qed.

Lemma any_available_elsewhere (env : Ntdll) (st : SystemVersion)
  (xs : list string) :
  Forall (fun x => detail.checkPlatform x = false) xs ->
  any_available env st xs = Some (false, st).
Proof.
  induction 1 as [| x xs Hx _ IH]; simpl; [reflexivity |].
  unfold ___windows_available_check. now rewrite Hx.
Qed.

Lemma any_available_assert (st : SystemVersion) (xs : list string) :
  majorVersion st = 0 ->
  any_available None st xs
  = if existsb detail.checkPlatform xs then None else Some (false, st).
Proof.
  intros H0. induction xs as [| x xs IH]; simpl; [reflexivity |].
  unfold ___windows_available_check.
  destruct (detail.checkPlatform x) eqn:Hp; simpl; [| exact IH].
  destruct (checkPlatform_parse_defined x Hp) as [body ->].
  unfold _isVersionAtLeast, loadIfUnpopulated. now rewrite H0.
Qed.

(** The macro with one to five version strings answers whether the live
    triple reaches the version of at least one string that names this
    platform, and leaves the globals as they were or holding the live
    triple. *)
Theorem windows_available_is_disjunction :
  forall env st live a,
    loadIfUnpopulated env st = Some live ->
    exists st',
      ___windows_available env st a
      = Some (existsb (satisfied_by live) (version_strings a), st') /\
      (st' = st \/ st' = live).
Proof.
  intros env st live a Hlive. rewrite windows_available_list.
  now apply any_available_on_live.
Qed.

Lemma windows_available_is_disjunction_witness :
  exists st',
    ___windows_available (Some (10, 0, 19045)) unpopulated
      (versions3 "macOS 12" "Windows 11" "Windows 10 21H2")
    = Some (existsb (satisfied_by (mkSystemVersion 10 0 19045))
              (version_strings
                 (versions3 "macOS 12" "Windows 11" "Windows 10 21H2")), st') /\
    (st' = unpopulated \/ st' = mkSystemVersion 10 0 19045).
Proof.
  apply (windows_available_is_disjunction (Some (10, 0, 19045)) unpopulated
           (mkSystemVersion 10 0 19045)).
  reflexivity.
Defined.

(** When none of the strings names this platform the macro returns false
    without reading or loading the system version, so also where the OS
    query is not available. *)
Theorem windows_available_other_platforms :
  forall env st a,
    Forall (fun x => detail.checkPlatform x = false) (version_strings a) ->
    ___windows_available env st a = Some (false, st).
Proof.
  intros env st a H. rewrite windows_available_list.
  now apply any_available_elsewhere.
Qed.

Lemma windows_available_other_platforms_witness :
  ___windows_available None unpopulated (versions2 "macOS 12" "iOS 15")
  = Some (false, unpopulated).
Proof.
  apply (windows_available_other_platforms None unpopulated
           (versions2 "macOS 12" "iOS 15")).
  repeat constructor.
Defined.

(** The macro ends in the failed assertion exactly when the globals are
    unpopulated, the OS query is missing and some string names this
    platform; the [substr] of the parser never throws under the macro. *)
Theorem windows_available_fails_iff :
  forall env st a,
    ___windows_available env st a = None <->
    env = None /\ majorVersion st = 0 /\
    exists x, In x (version_strings a) /\ detail.checkPlatform x = true.
Proof.
  intros env st a. rewrite windows_available_list.
  rewrite <- existsb_exists.
  destruct (loadIfUnpopulated env st) as [live |] eqn:Hlive.
  - destruct (any_available_on_live env (version_strings a) st live Hlive)
      as (st' & -> & _).
    split; [discriminate |]. intros (-> & H0 & _).
    unfold loadIfUnpopulated in Hlive. rewrite H0 in Hlive. discriminate.
  - unfold loadIfUnpopulated in Hlive.
    destruct (Z.eqb_spec (majorVersion st) 0) as [H0 |]; [| discriminate].
    destruct env as [[[M m] b] |]; [discriminate |].
    rewrite (any_available_assert st _ H0).
    destruct (existsb detail.checkPlatform (version_strings a)).
    + tauto.
    + split; [discriminate | intros (_ & _ & [=])].
Qed.

(** Once a call has left a non-zero major number in the globals, the same
    call repeated on them returns the same answer and leaves them alone,
    whatever the OS query would report then. *)
Theorem windows_available_repeatable :
  forall env env' st a r st',
    ___windows_available env st a = Some (r, st') ->
    majorVersion st' <> 0 ->
    ___windows_available env' st' a = Some (r, st').
Proof.
  intros env env' st a r st' Hrun Hpop.
  assert (Hst' : loadIfUnpopulated env' st' = Some st').
  { unfold loadIfUnpopulated. apply Z.eqb_neq in Hpop. now rewrite Hpop. }
  rewrite windows_available_list in *.
  destruct (any_available_on_live env' (version_strings a) st' st' Hst')
    as (st2 & -> & Hst2).
  assert (st2 = st') as -> by tauto. clear Hst2.
  destruct (loadIfUnpopulated env st) as [live |] eqn:Hlive.
  - destruct (any_available_on_live env (version_strings a) st live Hlive)
      as (st1 & Hrun1 & Hst1).
    rewrite Hrun1 in Hrun. injection Hrun as <- <-.
    destruct Hst1 as [-> | ->]; [| reflexivity].
    unfold loadIfUnpopulated in Hlive. apply Z.eqb_neq in Hpop.
    rewrite Hpop in Hlive. now injection Hlive as <-.
  - unfold loadIfUnpopulated in Hlive.
    destruct (Z.eqb_spec (majorVersion st) 0) as [H0 |]; [| discriminate].
    destruct env as [[[M m] b] |]; [discriminate |].
    rewrite (any_available_assert st _ H0) in Hrun.
    destruct (existsb detail.checkPlatform (version_strings a));
      [discriminate |].
    injection Hrun as <- <-. contradiction.
Qed.

Lemma windows_available_repeatable_witness :
  ___windows_available None (mkSystemVersion 10 0 19045)
    (versions2 "Windows 11" "Windows 10 2004")
  = Some (true, mkSystemVersion 10 0 19045).
Proof.
  apply (windows_available_repeatable (Some (10, 0, 4026550885)) None
           unpopulated).
  - reflexivity.
  - simpl. lia.
Defined.

Lemma tuple_le_trans (a b c : VersionTuple) :
  tuple_le a b = true -> tuple_le b c = true -> tuple_le a c = true.
Proof.
  rewrite !tuple_le_lex. unfold lex_le, lex_lt.
  destruct a as [[a0 a1] a2], b as [[b0 b1] b2], c as [[c0 c1] c2].
  intros [H1 | [= -> -> ->]] [H2 | [= <- <- <-]]; auto.
  left. lia.
Qed.

(** A system that satisfies a version satisfies every version that is
    lexicographically at most it. *)
Theorem isVersionAtLeast_downward :
  forall env st st' v1 v2,
    _isVersionAtLeast env st v2 = Some (true, st') ->
    tuple_le v1 v2 = true ->
    _isVersionAtLeast env st v1 = Some (true, st').
Proof.
  intros env st st' v1 v2 H2 H12. unfold _isVersionAtLeast in *.
  destruct (loadIfUnpopulated env st) as [live |]; [| discriminate].
  injection H2 as H2 <-.
  now rewrite (tuple_le_trans _ _ _ H12 H2).
Qed.

Lemma isVersionAtLeast_downward_witness :
  _isVersionAtLeast (Some (10, 0, 19045)) unpopulated (6, 1, 7601)
  = Some (true, mkSystemVersion 10 0 19045).
Proof.
  apply (isVersionAtLeast_downward (Some (10, 0, 19045)) unpopulated
           (mkSystemVersion 10 0 19045) (6, 1, 7601) (10, 0, 19041));
    reflexivity.
Defined.

(** ** The range of parsed triples *)

Lemma to_DWORD_is_DWORD (z : Z) : is_DWORD (to_DWORD z).
Proof. apply to_DWORD_range. Qed.

Lemma extract_loop_is_DWORD (s : string) (v : DWORD) :
  is_DWORD v -> is_DWORD (snd (detail.extract_loop s v)).
Proof.
  revert v; induction s as [| a s IH]; intros v Hv; simpl; [exact Hv |].
  destruct (detail.not_digit a); [exact Hv |].
  apply IH, to_DWORD_is_DWORD.
Qed.

Lemma extractVersionNumber_is_DWORD (s : string) (v : DWORD) :
  is_DWORD v -> is_DWORD (snd (detail.extractVersionNumber s v)).
Proof.
  intros Hv. destruct s as [| a s]; simpl; [exact Hv |].
  destruct (detail.not_digit a); [exact Hv |].
  pose proof (extract_loop_is_DWORD s (detail.digit_of a)) as H.
  destruct (detail.extract_loop s (detail.digit_of a)) as [s' v'].
  apply H, to_DWORD_is_DWORD.
Qed.

Lemma buildOfMinor_is_DWORD (r m : DWORD) :
  is_DWORD m -> is_DWORD (detail.buildOfMinor r m).
Proof.
  intros Hm. unfold detail.buildOfMinor.
  repeat match goal with
    | |- context [if ?b then _ else _] =>
        destruct b; [unfold is_DWORD; lia |]
    end.
  exact Hm.
Qed.

Lemma parseBuild_is_DWORD (r M m b : DWORD) (s : string) :
  is_DWORD M -> is_DWORD m -> is_DWORD b ->
  DWORD_triple (detail.parseBuild r M m b s).
Proof.
  intros HM Hm Hb. unfold detail.parseBuild.
  set (m1 := if (r =? 8) && (m =? 1) then 3 else m).
  assert (Hm1 : is_DWORD m1).
  { subst m1. destruct ((r =? 8) && (m =? 1)); [unfold is_DWORD; lia | exact Hm]. }
  pose proof (buildOfMinor_is_DWORD r m1 Hm1) as Hb1.
  assert (H0 : is_DWORD 0) by (unfold is_DWORD; lia).
  destruct ((M =? 10) && (m1 >? 0));
    (destruct (detail.no_separator s); [simpl; tauto |]);
    (destruct s as [| d s']; [simpl; tauto |]).
  - pose proof (extractVersionNumber_is_DWORD s' _ Hb1) as Hx.
    destruct (detail.extractVersionNumber s' _) as [[ok s''] b'].
    destruct ok; simpl in *; tauto.
  - pose proof (extractVersionNumber_is_DWORD s' _ Hb) as Hx.
    destruct (detail.extractVersionNumber s' _) as [[ok s''] b'].
    destruct ok; simpl in *; tauto.
Qed.

Lemma requestedMajor_is_DWORD (body : string) (r m : DWORD) (s : string) :
  detail.requestedMajor body = Some (r, m, s) -> is_DWORD r /\ is_DWORD m.
Proof.
  unfold detail.requestedMajor.
  destruct (_ || _); [intros [= <- <- _]; unfold is_DWORD; lia |].
  destruct (_ || _); [intros [= <- <- _]; unfold is_DWORD; lia |].
  pose proof (extractVersionNumber_is_DWORD body 0) as Hx.
  destruct (detail.extractVersionNumber body 0) as [[ok s'] v].
  destruct ok; [| discriminate]. intros [= <- <- _].
  split; [apply Hx |]; unfold is_DWORD; simpl; lia.
Qed.

(** Every triple the parser returns has its three components in the range
    of a DWORD. *)
Theorem parse_is_DWORD_triple :
  forall s version,
    detail.parseWindowsVersion s = Some version -> DWORD_triple version.
Proof.
  intros s version. unfold detail.parseWindowsVersion.
  destruct (sv.substr s 8) as [body |]; [| discriminate].
  intros [= <-].
  destruct (detail.requestedMajor body) as [[[r m] s'] |] eqn:Hreq.
  - destruct (requestedMajor_is_DWORD _ _ _ _ Hreq) as [Hr Hm].
    rewrite (parseStripped_eq _ _ _ _ Hreq).
    set (major := if r =? 11 then 10
                  else if r =? 8 then 6 else if r =? 7 then 6 else r).
    set (minor := if r =? 8 then 2 else if r =? 7 then 1 else m).
    set (build := if r =? 11 then 22000 else 0).
    assert (HM : is_DWORD major).
    { subst major. repeat destruct (_ =? _); try exact Hr; unfold is_DWORD; lia. }
    assert (Hmi : is_DWORD minor).
    { subst minor. repeat destruct (_ =? _); try exact Hm; unfold is_DWORD; lia. }
    assert (Hb : is_DWORD build).
    { subst build. destruct (_ =? _); unfold is_DWORD; lia. }
    cbv zeta.
    destruct s' as [| c s']; [simpl; tauto |].
    destruct (is_separator c); [| simpl; tauto].
    destruct (detail.namedUpdate r s') as [nb |] eqn:Hnamed.
    + apply parseBuild_is_DWORD; try assumption.
      unfold detail.namedUpdate in Hnamed.
      repeat match type of Hnamed with
        | (if ?t then _ else _) = _ =>
            destruct t; [injection Hnamed as <-; unfold is_DWORD; lia |]
        end.
      discriminate Hnamed.
    + pose proof (extractVersionNumber_is_DWORD s' minor Hmi) as Hx.
      destruct (detail.extractVersionNumber s' minor) as [[ok s''] minor'].
      simpl in Hx. destruct ok.
      * now apply parseBuild_is_DWORD.
      * simpl. tauto.
  - unfold detail.parseStripped. rewrite Hreq.
    change detail.makeVersion_invalid with (4294967295, 0, 0).
    unfold DWORD_triple, is_DWORD. lia.
Qed.

Lemma parse_is_DWORD_triple_witness :
  DWORD_triple (10, 0, 1).
Proof.
  apply (parse_is_DWORD_triple "Windows 10.4294967297" (10, 0, 1)).
  reflexivity.
Defined.

(** ** Version strings made of numbers *)

Lemma digit_is_no_alias_letter (a : ascii) :
  is_decimal_digit a = true ->
  Ascii.eqb "V" a = false /\ Ascii.eqb "v" a = false /\
  Ascii.eqb "X" a = false /\ Ascii.eqb "x" a = false /\
  Ascii.eqb "H" a = false.
Proof. each_ascii a; intros H; try discriminate H; repeat split. Qed.

Lemma requestedMajor_digits (d rest : string) :
  d <> "" ->
  all_digits d = true ->
  starts_with_digit rest = false ->
  detail.requestedMajor (d ++ rest) = Some (DWORD_value d, 0, rest).
Proof.
  intros Hne Hd Hrest. rewrite requestedMajor_eq.
  rewrite (extractVersionNumber_digits d rest 0 Hne Hd Hrest).
  destruct d as [| a d]; [congruence |].
  simpl in Hd. apply andb_true_iff in Hd as [Ha _].
  destruct (digit_is_no_alias_letter a Ha) as (E1 & E2 & E3 & E4 & _).
  cbn [begins_with append]. now rewrite E1, E2, E3, E4.
Qed.

Lemma requestedMajor_none (body : string) :
  begins_with "Vista" body = false ->
  begins_with "vista" body = false ->
  begins_with "XP" body = false ->
  begins_with "xp" body = false ->
  starts_with_digit body = false ->
  detail.requestedMajor body = None.
Proof.
  intros H1 H2 H3 H4 Hd. rewrite requestedMajor_eq, H1, H2, H3, H4.
  destruct body as [| c s]; [reflexivity |].
  simpl in *. now rewrite not_digit_spec, Hd.
Qed.

(** A named update can only be read off a run of two digits followed by
    the letter H. *)
Lemma named_match_shape (r : DWORD) (ds rest : string) (b : DWORD) :
  all_digits ds = true ->
  starts_with_digit rest = false ->
  detail.namedUpdate r (ds ++ rest) = Some b ->
  exists a1 a2 rest', ds = String a1 (String a2 "") /\ rest = String "H" rest'.
Proof.
  intros Hds Hrest Hnamed.
  apply namedUpdate_table in Hnamed as (code & tail & Heq & Hin).
  assert (Hcode : exists x y z, code = String x (String y (String "H" z)) /\
                                is_decimal_digit x = true /\
                                is_decimal_digit y = true).
  { simpl in Hin.
    repeat destruct Hin as [[= _ <- _] | Hin];
      try (eexists _, _, _; repeat split; reflexivity).
    destruct Hin. }
  destruct Hcode as (x & y & z & -> & Hx & Hy). simpl in Heq.
  destruct ds as [| a1 [| a2 [| a3 ds]]]; simpl in Heq, Hds.
  - subst rest. simpl in Hrest. congruence.
  - injection Heq as -> ->. simpl in Hrest. congruence.
  - injection Heq as -> -> ->. now exists x, y, (z ++ tail).
  - injection Heq as -> -> -> _.
    apply andb_true_iff in Hds as [_ Hds].
    apply andb_true_iff in Hds as [_ Hds].
    apply andb_true_iff in Hds as [Hh _]. discriminate Hh.
Qed.

Lemma namedUpdate_before_separator (r : DWORD) (ds : string) (c : ascii)
  (rest : string) :
  all_digits ds = true ->
  is_separator c = true ->
  detail.namedUpdate r (ds ++ String c rest) = None.
Proof.
  intros Hds Hc.
  destruct (detail.namedUpdate r (ds ++ String c rest)) as [b |] eqn:Hnamed;
    [| reflexivity].
  apply named_match_shape in Hnamed as (a1 & a2 & rest' & _ & [= -> _]);
    [discriminate Hc | exact Hds |].
  apply is_separator_cases in Hc as [-> | [-> | ->]]; reflexivity.
Qed.

(** The minor number the third group of statements leaves. *)
Lemma parseBuild_stop (r M m b : DWORD) (rest : string) :
  detail.no_separator rest = true ->
  detail.parseBuild r M m b rest =
  let m1 := if (r =? 8) && (m =? 1) then 3 else m in
  if (M =? 10) && (m1 >? 0) then (M, 0, detail.buildOfMinor r m1)
  else (M, m1, b).
Proof.
  intros Hrest. unfold detail.parseBuild. cbv zeta.
  destruct ((M =? 10) && (_ >? 0)); now rewrite Hrest.
Qed.

Lemma parseBuild_third (r M m b : DWORD) (c : ascii) (d rest : string) :
  is_separator c = true ->
  d <> "" ->
  all_digits d = true ->
  starts_with_digit rest = false ->
  detail.parseBuild r M m b (String c (d ++ rest)) =
  let m1 := if (r =? 8) && (m =? 1) then 3 else m in
  (M, (if (M =? 10) && (m1 >? 0) then 0 else m1), DWORD_value d).
Proof.
  intros Hc Hne Hd Hrest. unfold detail.parseBuild. cbv zeta.
  rewrite no_separator_cons, Hc. cbn [negb].
  destruct ((M =? 10) && (_ >? 0));
    now rewrite (extractVersionNumber_digits d rest _ Hne Hd Hrest).
Qed.

(** A string without alias and without leading digit after the platform
    prefix parses to the sentinel triple, and the check of it returns
    false on every system whose major number is below 0xFFFFFFFF. *)
Theorem unparseable_never_available :
  forall env st live x body,
    detail.checkPlatform x = true ->
    sv.substr x 8 = Some body ->
    begins_with "Vista" body = false ->
    begins_with "vista" body = false ->
    begins_with "XP" body = false ->
    begins_with "xp" body = false ->
    starts_with_digit body = false ->
    loadIfUnpopulated env st = Some live ->
    majorVersion live < DWORD_MAX ->
    detail.parseWindowsVersion x = Some sentinel /\
    ___windows_available_check env st x = Some (false, live).
Proof.
  intros env st live x body Hp Hbody H1 H2 H3 H4 Hd Hlive Hmajor.
  assert (Hparse : detail.parseWindowsVersion x = Some sentinel).
  { unfold detail.parseWindowsVersion, detail.parseStripped.
    now rewrite Hbody, (requestedMajor_none body H1 H2 H3 H4 Hd). }
  split; [exact Hparse |].
  unfold ___windows_available_check. rewrite Hp, Hparse.
  rewrite (isVersionAtLeast_live _ _ _ _ Hlive). do 2 f_equal.
  apply lex_lt_not_le. unfold tie, sentinel, lex_lt. now left.
Qed.

Lemma unparseable_never_available_witness :
  detail.parseWindowsVersion "Windows Server 2008 SP2" = Some sentinel /\
  ___windows_available_check (Some (10, 0, 20348)) unpopulated
    "Windows Server 2008 SP2"
  = Some (false, mkSystemVersion 10 0 20348).
Proof.
  apply (unparseable_never_available (Some (10, 0, 20348)) unpopulated
           (mkSystemVersion 10 0 20348) "Windows Server 2008 SP2"
           "Server 2008 SP2");
    try reflexivity.
Defined.

Lemma remapped_major (r : DWORD) :
  (if r =? 11 then 10 else if r =? 8 then 6 else if r =? 7 then 6 else r)
  = reported_major r.
Proof.
  unfold reported_major.
  destruct (Z.eqb_spec r 7), (Z.eqb_spec r 8), (Z.eqb_spec r 11);
    try reflexivity; lia.
Qed.

Lemma reported_major_10 (r : DWORD) :
  (reported_major r =? 10) = (r =? 10) || (r =? 11).
Proof.
  unfold reported_major.
  destruct (Z.eqb_spec r 7), (Z.eqb_spec r 8), (Z.eqb_spec r 11),
    (Z.eqb_spec r 10); subst; try reflexivity; try lia.
Qed.

(** A major number alone: 7 and 8 are reported as 6.1 and 6.2, 11 as
    10.0 build 22000, every other number as itself with minor and build
    0. *)
Theorem parse_major_only :
  forall d1 rest,
    d1 <> "" ->
    all_digits d1 = true ->
    starts_with_digit rest = false ->
    detail.no_separator rest = true ->
    detail.parseWindowsVersion ("Windows " ++ d1 ++ rest)
    = Some (reported_major (DWORD_value d1),
            (if DWORD_value d1 =? 7 then 1
             else if DWORD_value d1 =? 8 then 2 else 0),
            (if DWORD_value d1 =? 11 then 22000 else 0)).
Proof.
  intros d1 rest Hne Hd Hrest Hsep.
  rewrite parseWindowsVersion_stripped.
  rewrite (parseStripped_eq _ _ _ _ (requestedMajor_digits d1 rest Hne Hd Hrest)).
  set (V := DWORD_value d1). cbv zeta. rewrite remapped_major.
  assert (Hminor : (if V =? 8 then 2 else if V =? 7 then 1 else 0)
                   = (if V =? 7 then 1 else if V =? 8 then 2 else 0)).
  { destruct (Z.eqb_spec V 7), (Z.eqb_spec V 8); try reflexivity; lia. }
  rewrite Hminor.
  destruct rest as [| c r]; [reflexivity |].
  rewrite no_separator_cons in Hsep. apply negb_true_iff in Hsep.
  now rewrite Hsep.
Qed.

Lemma parse_major_only_witness :
  detail.parseWindowsVersion ("Windows " ++ "0011" ++ "-beta")
  = Some (reported_major (DWORD_value "0011"),
          (if DWORD_value "0011" =? 7 then 1
           else if DWORD_value "0011" =? 8 then 2 else 0),
          (if DWORD_value "0011" =? 11 then 22000 else 0)).
Proof.
  apply (parse_major_only "0011" "-beta"); try reflexivity. discriminate.
Defined.

(** Major and minor numbers, for a major number other than 10 and 11:
    the minor number given replaces the one implied by 7 or 8, 8.1 is
    reported as 6.3, and the build is 0. *)
Theorem parse_major_minor :
  forall d1 c1 d2 rest,
    d1 <> "" -> all_digits d1 = true ->
    is_separator c1 = true ->
    d2 <> "" -> all_digits d2 = true ->
    starts_with_digit rest = false ->
    detail.no_separator rest = true ->
    DWORD_value d1 <> 10 -> DWORD_value d1 <> 11 ->
    detail.parseWindowsVersion ("Windows " ++ d1 ++ String c1 (d2 ++ rest))
    = Some (reported_major (DWORD_value d1),
            (if (DWORD_value d1 =? 8) && (DWORD_value d2 =? 1) then 3
             else DWORD_value d2),
            0).
Proof.
  intros d1 c1 d2 rest Hne1 Hd1 Hc1 Hne2 Hd2 Hrest Hsep N10 N11.
  rewrite parseWindowsVersion_stripped.
  assert (Hsep1 : starts_with_digit (String c1 (d2 ++ rest)) = false).
  { apply is_separator_cases in Hc1 as [-> | [-> | ->]]; reflexivity. }
  rewrite (parseStripped_eq _ _ _ _
             (requestedMajor_digits d1 _ Hne1 Hd1 Hsep1)).
  set (V1 := DWORD_value d1) in *. set (V2 := DWORD_value d2).
  cbv zeta. rewrite remapped_major, Hc1.
  rewrite (namedUpdate_other V1 _ N10 N11).
  rewrite (extractVersionNumber_digits d2 rest _ Hne2 Hd2 Hrest).
  fold V2. rewrite (parseBuild_stop _ _ _ _ _ Hsep). cbv zeta.
  rewrite reported_major_10.
  apply Z.eqb_neq in N10, N11. now rewrite N10, N11.
Qed.

Lemma parse_major_minor_witness :
  detail.parseWindowsVersion ("Windows " ++ "8" ++ String "." ("1" ++ ""))
  = Some (reported_major (DWORD_value "8"),
          (if (DWORD_value "8" =? 8) && (DWORD_value "1" =? 1) then 3
           else DWORD_value "1"),
          0).
Proof.
  apply (parse_major_minor "8" "."%char "1" ""); try reflexivity;
    discriminate.
Defined.

(** Three numbers: the build is the third number whatever the first two
    are; the major number is remapped as for a major number alone; the
    minor number is 0 under major 10 and 11, 3 for 8.1, and the second
    number otherwise. *)
Theorem parse_three_numbers :
  forall d1 c1 d2 c2 d3 rest,
    d1 <> "" -> all_digits d1 = true ->
    is_separator c1 = true ->
    d2 <> "" -> all_digits d2 = true ->
    is_separator c2 = true ->
    d3 <> "" -> all_digits d3 = true ->
    starts_with_digit rest = false ->
    detail.parseWindowsVersion
      ("Windows " ++ d1 ++ String c1 (d2 ++ String c2 (d3 ++ rest)))
    = Some (reported_major (DWORD_value d1),
            (if (DWORD_value d1 =? 10) || (DWORD_value d1 =? 11) then 0
             else if (DWORD_value d1 =? 8) && (DWORD_value d2 =? 1) then 3
             else DWORD_value d2),
            DWORD_value d3).
Proof.
  intros d1 c1 d2 c2 d3 rest Hne1 Hd1 Hc1 Hne2 Hd2 Hc2 Hne3 Hd3 Hrest.
  rewrite parseWindowsVersion_stripped.
  assert (Hsep1 : forall s, starts_with_digit (String c1 s) = false).
  { intros s. apply is_separator_cases in Hc1 as [-> | [-> | ->]]; reflexivity. }
  assert (Hsep2 : forall s, starts_with_digit (String c2 s) = false).
  { intros s. apply is_separator_cases in Hc2 as [-> | [-> | ->]]; reflexivity. }
  rewrite (parseStripped_eq _ _ _ _
             (requestedMajor_digits d1 _ Hne1 Hd1 (Hsep1 _))).
  set (V1 := DWORD_value d1). set (V2 := DWORD_value d2).
  cbv zeta. rewrite remapped_major, Hc1.
  rewrite (namedUpdate_before_separator V1 d2 c2 _ Hd2 Hc2).
  rewrite (extractVersionNumber_digits d2 _ _ Hne2 Hd2 (Hsep2 _)).
  change (decimal_value d2 mod 2 ^ 32) with V2.
  rewrite (parseBuild_third _ _ _ _ _ _ _ Hc2 Hne3 Hd3 Hrest).
  cbv zeta. rewrite reported_major_10. do 2 f_equal.
  f_equal.
  assert (HV2 : 0 <= V2) by apply to_DWORD_range.
  destruct (Z.eqb_spec V1 10), (Z.eqb_spec V1 11), (Z.eqb_spec V1 8),
    (Z.eqb_spec V2 1); cbn [andb orb]; try lia; try reflexivity;
    destruct (Z.gtb_spec V2 0); try reflexivity; lia.
Qed.

Lemma parse_three_numbers_witness :
  detail.parseWindowsVersion
    ("Windows " ++ "11" ++ String "." ("0" ++ String "." ("22621" ++ ".1")))
  = Some (reported_major (DWORD_value "11"),
          (if (DWORD_value "11" =? 10) || (DWORD_value "11" =? 11) then 0
           else if (DWORD_value "11" =? 8) && (DWORD_value "0" =? 1) then 3
           else DWORD_value "0"),
          DWORD_value "22621").
Proof.
  apply (parse_three_numbers "11" "."%char "0" "."%char "22621" ".1");
    try reflexivity; discriminate.
Defined.

(** ** Windows 10 feature updates given as numbers *)

Lemma namedUpdate_digits (r : DWORD) (ds rest : string) (b : DWORD) :
  all_digits ds = true ->
  starts_with_digit rest = false ->
  detail.namedUpdate r (ds ++ rest) = Some b ->
  ds = "22" \/ ds = "21" \/ ds = "20".
Proof.
  intros Hds Hrest Hnamed.
  destruct (named_match_shape r ds rest b Hds Hrest Hnamed)
    as (a1 & a2 & rest' & -> & ->).
  apply namedUpdate_table in Hnamed as (code & tail & Heq & Hin).
  simpl in Hin, Heq.
  repeat destruct Hin as [[= _ <- _] | Hin];
    try (injection Heq as -> -> _; tauto).
  destruct Hin.
Qed.

(** After "Windows 10" and a separator, the ten feature-update numbers
    give their builds, any other non-zero number that does not start a
    named update is itself the build, and 0 leaves the build 0; the
    minor number reported is 0 throughout. *)
Theorem windows_10_update_numbers :
  forall c ds rest,
    is_separator c = true ->
    ds <> "" ->
    all_digits ds = true ->
    starts_with_digit rest = false ->
    detail.no_separator rest = true ->
    (forall b,
        In (DWORD_value ds, b) feature_updates ->
        detail.parseWindowsVersion ("Windows 10" ++ String c (ds ++ rest))
        = Some (10, 0, b)) /\
    (0 < DWORD_value ds ->
     ~ In (DWORD_value ds) (map fst feature_updates) ->
     (forall code b,
         In (10, code, b) named_updates ->
         begins_with code (ds ++ rest) = false) ->
     detail.parseWindowsVersion ("Windows 10" ++ String c (ds ++ rest))
     = Some (10, 0, DWORD_value ds)) /\
    (DWORD_value ds = 0 ->
     detail.parseWindowsVersion ("Windows 10" ++ String c (ds ++ rest))
     = Some (10, 0, 0)).
Proof.
  intros c ds rest Hc Hne Hds Hrest Hsep.
  rewrite (parse_10_sep c _ Hc).
  rewrite (extractVersionNumber_digits ds rest 0 Hne Hds Hrest).
  rewrite (parseBuild_stop _ _ _ _ _ Hsep). cbv zeta.
  change (decimal_value ds mod 2 ^ 32) with (DWORD_value ds).
  set (n := DWORD_value ds).
  change ((10 =? 8) && (n =? 1)) with false. change (10 =? 10) with true.
  cbv iota. cbn [andb].
  split; [| split].
  - intros b Hin.
    destruct (detail.namedUpdate 10 (ds ++ rest)) as [nb |] eqn:Hnamed.
    + exfalso. subst n.
      destruct (namedUpdate_digits _ _ _ _ Hds Hrest Hnamed) as [-> | [-> | ->]];
        simpl in Hin;
        repeat destruct Hin as [[= H _] | Hin]; try discriminate H;
        destruct Hin.
    + simpl in Hin.
      repeat destruct Hin as [[= <- <-] | Hin]; try reflexivity.
      destruct Hin.
  - intros Hpos Hother Hnamed.
    rewrite namedUpdate_eq.
    rewrite (Hnamed "22H2" 19045), (Hnamed "21H2" 19044),
      (Hnamed "21H1" 19043), (Hnamed "20H2" 19042) by (simpl; tauto).
    cbn [andb].
    change (10 =? 11) with false. cbv iota.
    assert (Hgt : (n >? 0) = true) by (apply Z.gtb_lt; lia).
    rewrite Hgt. unfold detail.buildOfMinor.
    assert (Hk : forall k, In k (map fst feature_updates) -> (n =? k) = false).
    { intros k Hin. apply Z.eqb_neq. intros ->. now apply Hother. }
    rewrite !Hk by (simpl; tauto). now rewrite !andb_false_r.
  - intros H0.
    destruct (detail.namedUpdate 10 (ds ++ rest)) as [nb |] eqn:Hnamed.
    + exfalso. subst n.
      destruct (namedUpdate_digits _ _ _ _ Hds Hrest Hnamed) as [-> | [-> | ->]];
        discriminate H0.
    + now rewrite H0.
Qed.

Lemma windows_10_update_numbers_witness :
  detail.parseWindowsVersion ("Windows 10" ++ String " " ("1909" ++ ""))
  = Some (10, 0, 18363) /\
  detail.parseWindowsVersion ("Windows 10" ++ String "." ("19045" ++ "-x"))
  = Some (10, 0, DWORD_value "19045").
Proof.
  assert (Hne : forall c s, String c s <> "") by discriminate.
  split.
  - apply (proj1 (windows_10_update_numbers " "%char "1909" ""
                    eq_refl (Hne _ _) eq_refl eq_refl eq_refl)).
    simpl. tauto.
  - apply (proj1 (proj2 (windows_10_update_numbers "."%char "19045" "-x"
                           eq_refl (Hne _ _) eq_refl eq_refl eq_refl))).
    + reflexivity.
    + intros H. vm_compute in H. intuition discriminate.
    + intros code b H. simpl in H.
      decompose [or] H; try contradiction;
        match goal with
        | E : _ = (10, code, b) |- _ => inversion E; subst; reflexivity
        end.
Defined.

(** ** Interchangeable separators *)

Lemma same_up_to_separators_refl (s : string) : same_up_to_separators s s.
Proof. induction s; simpl; auto. Qed.

Lemma same_up_to_separators_app (p s1 s2 : string) :
  same_up_to_separators s1 s2 ->
  same_up_to_separators (p ++ s1) (p ++ s2).
Proof. intros H. induction p; simpl; auto. Qed.

Lemma begins_with_same (code s1 s2 : string) :
  separator_free code = true ->
  same_up_to_separators s1 s2 ->
  begins_with code s1 = begins_with code s2.
Proof.
  revert s1 s2; induction code as [| x code IH]; intros s1 s2 Hfree Hsame;
    [reflexivity |].
  simpl in Hfree. apply andb_true_iff in Hfree as [Hx Hfree].
  apply negb_true_iff in Hx.
  destruct s1 as [| a s1], s2 as [| b s2]; simpl in *; try tauto.
  destruct Hsame as [[-> | [Ha Hb]] Hsame].
  - now rewrite (IH _ _ Hfree Hsame).
  - assert (Ea : Ascii.eqb x a = false).
    { apply Ascii.eqb_neq. intros ->. congruence. }
    assert (Eb : Ascii.eqb x b = false).
    { apply Ascii.eqb_neq. intros ->. congruence. }
    now rewrite Ea, Eb.
Qed.

Lemma extract_loop_same (s1 : string) :
  forall s2 v,
    same_up_to_separators s1 s2 ->
    snd (detail.extract_loop s1 v) = snd (detail.extract_loop s2 v) /\
    same_up_to_separators (fst (detail.extract_loop s1 v))
                          (fst (detail.extract_loop s2 v)).
Proof.
  induction s1 as [| a s1 IH]; intros [| b s2] v Hsame; simpl in Hsame;
    try tauto.
  destruct Hsame as [[-> | [Ha Hb]] Hsame]; simpl.
  - destruct (detail.not_digit b); [simpl; auto | now apply IH].
  - rewrite (separator_not_digit a Ha), (separator_not_digit b Hb).
    simpl. auto.
Qed.

Lemma extractVersionNumber_same (s1 s2 : string) (v : DWORD) :
  same_up_to_separators s1 s2 ->
  exists ok v' t1 t2,
    detail.extractVersionNumber s1 v = (ok, t1, v') /\
    detail.extractVersionNumber s2 v = (ok, t2, v') /\
    same_up_to_separators t1 t2.
Proof.
  destruct s1 as [| a s1], s2 as [| b s2]; simpl; try tauto.
  - intros _. now exists false, v, "", "".
  - intros [[-> | [Ha Hb]] Hsame].
    + destruct (detail.not_digit b).
      * now exists false, v, s1, s2.
      * destruct (extract_loop_same s1 s2 (detail.digit_of b) Hsame)
          as [Hv Ht].
        destruct (detail.extract_loop s1 _) as [t1 v1],
          (detail.extract_loop s2 _) as [t2 v2].
        simpl in *. subst v2. now exists true, v1, t1, t2.
    + rewrite (separator_not_digit a Ha), (separator_not_digit b Hb).
      now exists false, v, s1, s2.
Qed.

Lemma parseBuild_same (r M m b : DWORD) (s1 s2 : string) :
  same_up_to_separators s1 s2 ->
  detail.parseBuild r M m b s1 = detail.parseBuild r M m b s2.
Proof.
  intros Hsame. unfold detail.parseBuild.
  set (mb := if (M =? 10) && _ then _ else _).
  destruct mb as [m' b'].
  destruct s1 as [| a s1], s2 as [| c s2]; simpl in Hsame; try tauto.
  rewrite !no_separator_cons.
  destruct Hsame as [[-> | [Ha Hc]] Hsame].
  - destruct (extractVersionNumber_same s1 s2 b' Hsame)
      as (ok & v' & t1 & t2 & -> & -> & _).
    reflexivity.
  - rewrite Ha, Hc. cbn [negb].
    destruct (extractVersionNumber_same s1 s2 b' Hsame)
      as (ok & v' & t1 & t2 & -> & -> & _).
    reflexivity.
Qed.

Lemma requestedMajor_same (b1 b2 : string) :
  same_up_to_separators b1 b2 ->
  (detail.requestedMajor b1 = None /\ detail.requestedMajor b2 = None) \/
  exists r m s1 s2,
    detail.requestedMajor b1 = Some (r, m, s1) /\
    detail.requestedMajor b2 = Some (r, m, s2) /\
    same_up_to_separators s1 s2.
Proof.
  intros Hsame. rewrite !requestedMajor_eq.
  rewrite (begins_with_same "Vista" b1 b2), (begins_with_same "vista" b1 b2),
    (begins_with_same "XP" b1 b2), (begins_with_same "xp" b1 b2)
    by (reflexivity || assumption).
  destruct (_ || _); [right; now exists 6, 0, b1, b2 |].
  destruct (_ || _); [right; now exists 5, 1, b1, b2 |].
  destruct (extractVersionNumber_same b1 b2 0 Hsame)
    as (ok & v' & t1 & t2 & -> & -> & Ht).
  destruct ok; [right; now exists v', 0, t1, t2 | now left].
Qed.

Lemma parseStripped_same (b1 b2 : string) :
  same_up_to_separators b1 b2 ->
  detail.parseStripped b1 = detail.parseStripped b2.
Proof.
  intros Hsame.
  destruct (requestedMajor_same b1 b2 Hsame)
    as [[H1 H2] | (r & m & s1 & s2 & H1 & H2 & Hs)].
  - unfold detail.parseStripped. now rewrite H1, H2.
  - rewrite (parseStripped_eq _ _ _ _ H1), (parseStripped_eq _ _ _ _ H2).
    cbv zeta.
    destruct s1 as [| a s1], s2 as [| c s2]; simpl in Hs; try tauto.
    destruct Hs as [Hac Hs].
    assert (Esep : is_separator a = is_separator c).
    { destruct Hac as [-> | [-> ->]]; reflexivity. }
    rewrite <- Esep. destruct (is_separator a); [| reflexivity].
    assert (Enamed : detail.namedUpdate r s1 = detail.namedUpdate r s2).
    { rewrite !namedUpdate_eq.
      now rewrite (begins_with_same "22H2" s1 s2),
        (begins_with_same "21H2" s1 s2), (begins_with_same "21H1" s1 s2),
        (begins_with_same "20H2" s1 s2) by (reflexivity || assumption). }
    rewrite <- Enamed.
    destruct (detail.namedUpdate r s1); [now apply parseBuild_same |].
    match goal with
    | |- context [detail.extractVersionNumber s1 ?v] =>
        destruct (extractVersionNumber_same s1 s2 v Hs)
          as (ok & v' & t1 & t2 & -> & -> & Ht)
    end.
    destruct ok; [now apply parseBuild_same | reflexivity].
Qed.

Lemma substr_same (n : nat) :
  forall x y,
    same_up_to_separators x y ->
    (sv.substr x n = None /\ sv.substr y n = None) \/
    exists b1 b2,
      sv.substr x n = Some b1 /\ sv.substr y n = Some b2 /\
      same_up_to_separators b1 b2.
Proof.
  induction n as [| n IH]; intros x y Hsame; simpl.
  - right. now exists x, y.
  - destruct x as [| a x], y as [| b y]; simpl in Hsame; try tauto.
    apply IH. tauto.
Qed.

(** The three separators are interchangeable: two strings that differ
    only in which separator stands at which place parse to the same
    result, and are checked alike when both name the platform. *)
Theorem separators_interchangeable :
  (forall x y,
      same_up_to_separators x y ->
      detail.parseWindowsVersion x = detail.parseWindowsVersion y) /\
  (forall pre c1 c2 rest,
      is_separator c1 = true ->
      is_separator c2 = true ->
      detail.parseWindowsVersion (pre ++ String c1 rest)
      = detail.parseWindowsVersion (pre ++ String c2 rest)) /\
  (forall env st x y,
      same_up_to_separators x y ->
      detail.checkPlatform x = true ->
      detail.checkPlatform y = true ->
      ___windows_available_check env st x
      = ___windows_available_check env st y).
Proof.
  assert (Hparse : forall x y,
             same_up_to_separators x y ->
             detail.parseWindowsVersion x = detail.parseWindowsVersion y).
  { intros x y Hsame. unfold detail.parseWindowsVersion.
    destruct (substr_same 8 x y Hsame)
      as [[-> ->] | (b1 & b2 & -> & -> & Hb)]; [reflexivity |].
    now rewrite (parseStripped_same b1 b2 Hb). }
  split; [exact Hparse | split].
  - intros pre c1 c2 rest H1 H2. apply Hparse.
    apply same_up_to_separators_app. simpl.
    split; [right; tauto | apply same_up_to_separators_refl].
  - intros env st x y Hsame Hx Hy. unfold ___windows_available_check.
    now rewrite Hx, Hy, (Hparse x y Hsame).
Qed.

Lemma separators_interchangeable_witness :
  detail.parseWindowsVersion ("Windows 10" ++ String "_" "21H2")
  = detail.parseWindowsVersion ("Windows 10" ++ String " " "21H2") /\
  ___windows_available_check (Some (10, 0, 19041)) unpopulated "Windows 6.1.7601"
  = ___windows_available_check (Some (10, 0, 19041)) unpopulated "Windows 6_1 7601".
Proof.
  split.
  - apply (proj1 (proj2 separators_interchangeable)); reflexivity.
  - apply (proj2 (proj2 separators_interchangeable)).
    + simpl. intuition.
    + reflexivity.
    + reflexivity.
Defined.

(** ** What an extraction consumes *)

Lemma digit_prefix_split (s : string) :
  s = digit_prefix s ++ after_digits s /\
  all_digits (digit_prefix s) = true /\
  starts_with_digit (after_digits s) = false.
Proof.
  induction s as [| c s (IH1 & IH2 & IH3)]; simpl; [auto |].
  destruct (is_decimal_digit c) eqn:Hc; simpl.
  - rewrite Hc, IH2. repeat split; [now f_equal | exact IH3].
  - now rewrite Hc.
Qed.

(** On every cursor: one that begins with a digit loses its maximal run
    of digits, whose value modulo 2^32 is stored; any other loses its
    first character, if it has one, and the value is left as it was. *)
Theorem extractVersionNumber_consumes :
  (forall s v,
      detail.extractVersionNumber s v
      = if starts_with_digit s
        then (true, after_digits s, DWORD_value (digit_prefix s))
        else (false, match s with
                     | EmptyString => EmptyString
                     | String _ s' => s'
                     end, v)) /\
  (forall s,
      s = digit_prefix s ++ after_digits s /\
      all_digits (digit_prefix s) = true /\
      starts_with_digit (after_digits s) = false).
Proof.
  split; [| exact digit_prefix_split].
  intros s v. destruct s as [| c s]; [reflexivity |].
  cbn [starts_with_digit]. destruct (is_decimal_digit c) eqn:Hc.
  - destruct (digit_prefix_split (String c s)) as (Hsplit & Hall & Hafter).
    rewrite Hsplit at 1.
    apply extractVersionNumber_digits; try assumption.
    simpl. now rewrite Hc.
  - simpl. now rewrite not_digit_spec, Hc.
Qed.

(** ** When appended text lowers the parse *)

Lemma extractVersionNumber_closed (s : string) (v : DWORD) :
  detail.extractVersionNumber s v
  = if starts_with_digit s
    then (true, after_digits s, DWORD_value (digit_prefix s))
    else (false, match s with
                 | EmptyString => EmptyString
                 | String _ s' => s'
                 end, v).
Proof.
  destruct s as [| c s]; [reflexivity |].
  cbn [starts_with_digit]. destruct (is_decimal_digit c) eqn:Hc.
  - destruct (digit_prefix_split (String c s)) as (Hsplit & Hall & Hafter).
    rewrite Hsplit at 1.
    apply extractVersionNumber_digits; try assumption.
    simpl. now rewrite Hc.
  - simpl. now rewrite not_digit_spec, Hc.
Qed.

Lemma tuple_le_same_major (M m b m' b' : DWORD) :
  tuple_le (M, m, b) (M, m', b') = (m <? m') || ((m =? m') && (b <=? b')).
Proof.
  unfold tuple_le, tuple_lt. rewrite Z.ltb_irrefl.
  destruct (Z.ltb_spec m' m), (Z.ltb_spec m m'), (Z.eqb_spec m m'),
    (Z.ltb_spec b' b), (Z.leb_spec b b'); simpl; try reflexivity; lia.
Qed.

Lemma separator_starts_no_number (c : ascii) (s : string) :
  is_separator c = true -> starts_with_digit (String c s) = false.
Proof.
  intros H. apply is_separator_cases in H as [-> | [-> | ->]]; reflexivity.
Qed.

Lemma starts_with_digit_app (s t : string) :
  starts_with_digit t = false ->
  starts_with_digit (s ++ t) = starts_with_digit s.
Proof. intros Ht. now destruct s. Qed.

Lemma digits_app (s t : string) :
  starts_with_digit t = false ->
  digit_prefix (s ++ t) = digit_prefix s /\
  after_digits (s ++ t) = after_digits s ++ t.
Proof.
  intros Ht. induction s as [| a s [IH1 IH2]];
    cbn [append digit_prefix after_digits].
  - destruct t as [| c t]; [auto |].
    cbn [starts_with_digit digit_prefix after_digits] in *. now rewrite Ht.
  - destruct (is_decimal_digit a); [now rewrite IH1 | auto].
Qed.

Lemma digit_prefix_nonempty (s : string) :
  starts_with_digit s = true -> digit_prefix s <> "".
Proof.
  destruct s as [| c s]; [discriminate |]. simpl. now intros ->.
Qed.

(** The requested major number of a text that begins with a digit. *)
Lemma requestedMajor_number (body : string) :
  starts_with_digit body = true ->
  detail.requestedMajor body
  = Some (DWORD_value (digit_prefix body), 0, after_digits body).
Proof.
  intros Hd. destruct (digit_prefix_split body) as (Hsplit & Hall & Hafter).
  rewrite Hsplit at 1.
  now apply requestedMajor_digits; [apply digit_prefix_nonempty | |].
Qed.

Lemma namedUpdate_app (r : DWORD) (s : string) (c : ascii) (ext : string) :
  is_separator c = true ->
  detail.namedUpdate r (s ++ String c ext) = detail.namedUpdate r s.
Proof.
  intros Hc. rewrite !namedUpdate_eq.
  assert (Hfree : forall code,
             In code ["22H2"; "21H2"; "21H1"; "20H2"] -> free_of c code = true).
  { intros code Hin. apply is_separator_cases in Hc. simpl in Hin.
    destruct Hc as [-> | [-> | ->]];
      repeat destruct Hin as [<- | Hin]; try reflexivity; destruct Hin. }
  now rewrite !begins_with_app by (apply Hfree; simpl; tauto).
Qed.

Lemma namedUpdate_needs_digit (r : DWORD) (s : string) :
  starts_with_digit s = false -> detail.namedUpdate r s = None.
Proof.
  intros Hs. destruct (detail.namedUpdate r s) as [b |] eqn:Hnamed;
    [| reflexivity].
  destruct (named_match_shape r "" s b eq_refl Hs Hnamed)
    as (a1 & a2 & rest & [=] & _).
Qed.

(** The third group of statements, with the extraction in closed form. *)
Lemma parseBuild_form (r M m b : DWORD) (s : string) :
  detail.parseBuild r M m b s =
  let m1 := if (r =? 8) && (m =? 1) then 3 else m in
  let mb := if (M =? 10) && (m1 >? 0)
            then (0, detail.buildOfMinor r m1) else (m1, b) in
  match s with
  | EmptyString => (M, fst mb, snd mb)
  | String d s' =>
      if is_separator d
      then (M, fst mb,
            if starts_with_digit s' then DWORD_value (digit_prefix s')
            else snd mb)
      else (M, fst mb, snd mb)
  end.
Proof.
  unfold detail.parseBuild. cbv zeta.
  destruct ((M =? 10) && (_ >? 0)); cbn [fst snd];
    (destruct s as [| d s']; [reflexivity |]);
    rewrite no_separator_cons; destruct (is_separator d); cbn [negb];
    try reflexivity;
    rewrite extractVersionNumber_closed;
    now destruct (starts_with_digit s').
Qed.

Lemma buildOfMinor_10 (n : DWORD) : detail.buildOfMinor 10 n = update_build n.
Proof.
  unfold detail.buildOfMinor, update_build, feature_updates.
  change (10 =? 10) with true. cbn [andb find fst snd].
  rewrite !(Z.eqb_sym _ n).
  repeat match goal with
    | |- context [n =? ?k] => destruct (n =? k); [reflexivity |]
    end.
  reflexivity.
Qed.

Lemma buildOfMinor_11 (n : DWORD) : detail.buildOfMinor 11 n = n.
Proof. reflexivity. Qed.

Lemma DWORD_value_nonneg (s : string) : 0 <= DWORD_value s.
Proof. apply to_DWORD_range. Qed.

(** Both sides of a comparison of two triples with one major number,
    decided by cases on the comparisons of their components. *)
Ltac compare_triples :=
  rewrite ?tuple_le_same_major;
  repeat match goal with
    | |- context [?a <? ?b] => destruct (Z.ltb_spec a b)
    | |- context [?a =? ?b] => destruct (Z.eqb_spec a b)
    | |- context [?a <=? ?b] => destruct (Z.leb_spec a b)
    end;
  cbn [andb orb negb]; try reflexivity; try lia.

Lemma named_build_nonneg (r : DWORD) (s : string) (nb : DWORD) :
  detail.namedUpdate r s = Some nb -> 0 <= nb.
Proof.
  intros Hnamed. unfold detail.namedUpdate in Hnamed.
  repeat match type of Hnamed with
    | (if ?t then _ else _) = _ =>
        destruct t; [injection Hnamed as <-; lia |]
    end.
  discriminate Hnamed.
Qed.

(** A shorter string that ends in its major number. *)
Lemma extension_after_major (body : string) (V1 : DWORD) (c : ascii)
  (ext : string) :
  detail.requestedMajor body = Some (V1, 0, "") ->
  detail.requestedMajor (body ++ String c ext) = Some (V1, 0, String c ext) ->
  is_separator c = true ->
  tuple_le (detail.parseStripped body)
           (detail.parseStripped (body ++ String c ext))
  = negb (lowers_after_major V1 ext).
Proof.
  intros Hshort Hlong Hc.
  rewrite (parseStripped_eq _ _ _ _ Hshort), (parseStripped_eq _ _ _ _ Hlong).
  cbv zeta. rewrite Hc.
  unfold lowers_after_major, number_at.
  rewrite extractVersionNumber_closed.
  destruct (starts_with_digit ext) eqn:He;
    [| rewrite (namedUpdate_needs_digit _ _ He); apply tuple_le_refl].
  set (V := DWORD_value (digit_prefix ext)).
  assert (HV : 0 <= V) by (subst V; apply to_DWORD_range).
  destruct (digit_prefix_split ext) as (_ & _ & Hrest).
  set (rest := after_digits ext) in *.
  pose proof (parseBuild_form V1) as Hform.
  pose proof (named_build_nonneg V1 ext) as Hnb.
  rewrite namedUpdate_eq in *.
  destruct (Z.eqb_spec V1 7) as [E7 | N7], (Z.eqb_spec V1 8) as [E8 | N8],
    (Z.eqb_spec V1 10) as [E10 | N10], (Z.eqb_spec V1 11) as [E11 | N11];
    try (exfalso; lia); cbn [andb orb] in *.
  - (* 7 *)
    rewrite Hform. cbv zeta. change (6 =? 10) with false. cbn [andb fst snd].
    destruct rest as [| c2 s3]; [| destruct (is_separator c2);
                                   [destruct (starts_with_digit s3) |]];
      try (pose proof (DWORD_value_nonneg (digit_prefix s3)));
      compare_triples.
  - (* 8 *)
    rewrite Hform. cbv zeta. change (6 =? 10) with false. cbn [andb fst snd].
    destruct rest as [| c2 s3]; [| destruct (is_separator c2);
                                   [destruct (starts_with_digit s3) |]];
      try (pose proof (DWORD_value_nonneg (digit_prefix s3)));
      destruct (Z.eqb_spec V 1); compare_triples.
  - (* 10 *)
    assert (Hge : forall m b, 0 <= m -> 0 <= b -> forall s,
                 tuple_le (V1, 0, 0) (detail.parseBuild V1 V1 m b s) = true).
    { intros m b Hm Hb s.
      destruct (parseBuild_shape V1 V1 m b s Hm Hb) as (m' & b' & -> & ? & ?).
      apply tuple_le_later. lia. }
    repeat match goal with
      | |- context [if begins_with ?code ext then _ else _] =>
          destruct (begins_with code ext);
          [apply Hge; [lia | eapply Hnb; reflexivity] |]
      end.
    apply Hge; lia.
  - (* 11 *)
    destruct (begins_with "22H2" ext) eqn:B1.
    { apply begins_with_prefix in B1 as [tail ->].
      rewrite Hform. reflexivity. }
    destruct (begins_with "21H2" ext) eqn:B2.
    { apply begins_with_prefix in B2 as [tail ->].
      rewrite Hform. reflexivity. }
    rewrite Hform. cbv zeta. change (10 =? 10) with true. cbn [andb].
    subst V1. rewrite buildOfMinor_11.
    destruct (Z.gtb_spec V 0); cbn [fst snd];
      (destruct rest as [| c2 s3]; [| destruct (is_separator c2);
                                      [destruct (starts_with_digit s3) |]]);
      cbn [andb]; compare_triples.
  - (* any other major number *)
    assert (Hge : forall m b, 0 <= m -> 0 <= b -> forall s,
                 tuple_le (V1, 0, 0) (detail.parseBuild V1 V1 m b s) = true).
    { intros m b Hm Hb s.
      destruct (parseBuild_shape V1 V1 m b s Hm Hb) as (m' & b' & -> & ? & ?).
      apply tuple_le_later. lia. }
    apply Hge; lia.
Qed.

Lemma alias_tests_app (body : string) (c : ascii) (ext : string) :
  is_separator c = true ->
  forall code,
    In code ["Vista"; "vista"; "XP"; "xp"] ->
    begins_with code (body ++ String c ext) = begins_with code body.
Proof.
  intros Hc code Hin. apply begins_with_app.
  apply is_separator_cases in Hc. simpl in Hin.
  destruct Hc as [-> | [-> | ->]];
    repeat destruct Hin as [<- | Hin]; try reflexivity; destruct Hin.
Qed.

Lemma requestedMajor_none_app (body : string) (c : ascii) (ext : string) :
  is_separator c = true ->
  detail.requestedMajor body = None ->
  detail.requestedMajor (body ++ String c ext) = None.
Proof.
  intros Hc. rewrite !requestedMajor_eq.
  rewrite !(alias_tests_app body c ext Hc) by (simpl; tauto).
  destruct (_ || _); [discriminate |].
  destruct (_ || _); [discriminate |].
  rewrite !extractVersionNumber_closed.
  rewrite (starts_with_digit_app body _ (separator_starts_no_number c ext Hc)).
  now destruct (starts_with_digit body).
Qed.

(** An alias leaves the cursor on its first letter. *)
Lemma alias_cursor (body : string) (r m : DWORD) (s : string) :
  starts_with_digit body = false ->
  detail.requestedMajor body = Some (r, m, s) ->
  exists a s', s = String a s' /\ is_separator a = false.
Proof.
  intros Hd. rewrite requestedMajor_eq.
  destruct (begins_with "Vista" body) eqn:B1.
  { apply begins_with_prefix in B1 as [rest ->].
    intros [= <- <- <-]. now exists "V"%char, ("ista" ++ rest). }
  destruct (begins_with "vista" body) eqn:B2.
  { apply begins_with_prefix in B2 as [rest ->].
    intros [= <- <- <-]. now exists "v"%char, ("ista" ++ rest). }
  destruct (begins_with "XP" body) eqn:B3.
  { apply begins_with_prefix in B3 as [rest ->].
    intros [= <- <- <-]. now exists "X"%char, ("P" ++ rest). }
  destruct (begins_with "xp" body) eqn:B4.
  { apply begins_with_prefix in B4 as [rest ->].
    intros [= <- <- <-]. now exists "x"%char, ("p" ++ rest). }
  cbn [orb]. rewrite extractVersionNumber_closed, Hd. discriminate.
Qed.

(** The build in hand after "major separator minor". *)
Lemma build_in_hand (V1 V2 : DWORD) :
  0 <= V2 ->
  snd (if ((if V1 =? 11 then 10
            else if V1 =? 8 then 6 else if V1 =? 7 then 6 else V1) =? 10)
          && ((if (V1 =? 8) && (V2 =? 1) then 3 else V2) >? 0)
       then (0, detail.buildOfMinor V1
                  (if (V1 =? 8) && (V2 =? 1) then 3 else V2))
       else (if (V1 =? 8) && (V2 =? 1) then 3 else V2,
             if V1 =? 11 then 22000 else 0))
  = build_after_minor V1 V2.
Proof.
  intros HV2. unfold build_after_minor.
  destruct (Z.eqb_spec V1 7) as [E7 | N7], (Z.eqb_spec V1 8) as [E8 | N8],
    (Z.eqb_spec V1 10) as [E10 | N10], (Z.eqb_spec V1 11) as [E11 | N11];
    try (exfalso; lia); cbn [andb].
  - reflexivity.
  - now destruct (V2 =? 1).
  - subst V1. change (10 =? 10) with true. cbn [andb].
    rewrite buildOfMinor_10.
    destruct (Z.gtb_spec V2 0), (Z.ltb_spec 0 V2); try lia; reflexivity.
  - subst V1. change (10 =? 10) with true. cbn [andb].
    rewrite buildOfMinor_11.
    destruct (Z.gtb_spec V2 0), (Z.ltb_spec 0 V2); try lia; reflexivity.
  - apply Z.eqb_neq in N10. now rewrite N10.
Qed.

(** Appending a separator and further text lowers the parse exactly in
    the cases [lowers] lists. *)
Lemma parseStripped_extension (body : string) (c : ascii) (ext : string) :
  is_separator c = true ->
  tuple_le (detail.parseStripped body)
           (detail.parseStripped (body ++ String c ext))
  = negb (lowers body ext).
Proof.
  intros Hc.
  pose proof (separator_starts_no_number c ext Hc) as Ht.
  unfold lowers, number_at.
  destruct (starts_with_digit body) eqn:Hd.
  - pose proof (requestedMajor_number body Hd) as Hshort.
    assert (Hlong : detail.requestedMajor (body ++ String c ext)
                    = Some (DWORD_value (digit_prefix body), 0,
                            after_digits body ++ String c ext)).
    { rewrite requestedMajor_number
        by now rewrite (starts_with_digit_app body _ Ht).
      now destruct (digits_app body _ Ht) as [-> ->]. }
    set (V1 := DWORD_value (digit_prefix body)) in *.
    destruct (after_digits body) as [| c1 s2] eqn:Hafter.
    + now apply extension_after_major.
    + rewrite (parseStripped_eq _ _ _ _ Hshort), (parseStripped_eq _ _ _ _ Hlong).
      cbv zeta. cbn [append].
      destruct (is_separator c1) eqn:Hc1; [| apply tuple_le_refl].
      rewrite (namedUpdate_app V1 s2 c ext Hc).
      destruct (detail.namedUpdate V1 s2) as [nb |] eqn:Hnamed.
      * apply namedUpdate_table in Hnamed as (code & tail & -> & Hin).
        simpl in Hin.
        repeat destruct Hin as [[= _ <- _] | Hin];
          try (cbn [append]; rewrite !parseBuild_stop by reflexivity;
               rewrite tuple_le_refl; reflexivity).
        destruct Hin.
      * rewrite !extractVersionNumber_closed.
        rewrite (starts_with_digit_app s2 _ Ht).
        destruct (digits_app s2 _ Ht) as [-> ->].
        destruct (starts_with_digit s2) eqn:H2; [| apply tuple_le_refl].
        set (V2 := DWORD_value (digit_prefix s2)).
        assert (HV2 : 0 <= V2) by apply DWORD_value_nonneg.
        rewrite !parseBuild_form. cbv zeta.
        pose proof (build_in_hand V1 V2 HV2) as Hbuild.
        set (mb := if _ && _ then _ else _) in *.
        destruct (after_digits s2) as [| e s4]; cbn [append].
        -- rewrite Hc. unfold lowers_after_minor, number_at.
           destruct (starts_with_digit ext); [| apply tuple_le_refl].
           rewrite Hbuild. compare_triples.
        -- destruct (is_separator e); [| apply tuple_le_refl].
           rewrite (starts_with_digit_app s4 _ Ht).
           destruct (digits_app s4 _ Ht) as [-> _].
           apply tuple_le_refl.
  - destruct (detail.requestedMajor body) as [[[r m] s] |] eqn:Hreq.
    + destruct (alias_cursor _ _ _ _ Hd Hreq) as (a & s' & -> & Ha).
      rewrite (parseStripped_eq _ _ _ _ Hreq).
      rewrite (parseStripped_eq _ _ _ _
                 (requestedMajor_app _ _ _ _ c ext Hc Hreq)).
      cbv zeta. cbn [append]. rewrite Ha. apply tuple_le_refl.
    + unfold detail.parseStripped.
      rewrite Hreq, (requestedMajor_none_app body c ext Hc Hreq).
      apply tuple_le_refl.
Qed.

(** C8, amended: a string of at least eight characters and its extension
    by a separator and further text both parse, and the shorter parse is
    lexicographically at most the longer one except exactly when the
    shorter string ends in its first or second number and the appended
    text begins with a number that replaces a larger value: after a lone
    major number 7 or 8, a number of value 0; after a lone major number
    11, text that is no named update and gives a build below 22000 (its
    third number if it has one, else its first number when that is not
    0); after "major separator minor", a number below the build already
    parsed.  So parse("Windows 10") <= parse("Windows 10.0.19044"). *)
Theorem truncated_parse_weaker :
  (forall short long body c ext,
      sv.substr short 8 = Some body ->
      is_separator c = true ->
      long = short ++ String c ext ->
      exists a b,
        detail.parseWindowsVersion short = Some a /\
        detail.parseWindowsVersion long = Some b /\
        tuple_le a b = negb (lowers body ext)) /\
  detail.parseWindowsVersion "Windows 10" = Some (10, 0, 0) /\
  detail.parseWindowsVersion "Windows 10.0.19044" = Some (10, 0, 19044) /\
  tuple_le (10, 0, 0) (10, 0, 19044) = true.
Proof.
  split; [| repeat split].
  intros short long body c ext Hbody Hc ->.
  exists (detail.parseStripped body),
    (detail.parseStripped (body ++ String c ext)).
  unfold detail.parseWindowsVersion.
  rewrite (substr_app _ (String c ext) _ _ Hbody), Hbody.
  repeat split. now apply parseStripped_extension.
Qed.

Lemma truncated_parse_weaker_witness :
  (exists a b,
      detail.parseWindowsVersion "Windows 8.1" = Some a /\
      detail.parseWindowsVersion "Windows 8.1.9600" = Some b /\
      tuple_le a b = negb (lowers "8.1" "9600")) /\
  (exists a b,
      detail.parseWindowsVersion "Windows 11" = Some a /\
      detail.parseWindowsVersion "Windows 11.1" = Some b /\
      tuple_le a b = negb (lowers "11" "1")).
Proof.
  split.
  - apply (proj1 truncated_parse_weaker "Windows 8.1" "Windows 8.1.9600"
             "8.1" "."%char "9600"); reflexivity.
  - apply (proj1 truncated_parse_weaker "Windows 11" "Windows 11.1"
             "11" "."%char "1"); reflexivity.
Defined.

Example lowers_samples :
  lowers "8.1" "9600" = false /\ lowers "10.0" "19044" = false /\
  lowers "7.1" "7601" = false /\ lowers "10" "0.19044" = false /\
  lowers "11" "22H2" = false /\ lowers "11" "0.22621" = false /\
  lowers "11" "1" = true /\ lowers "11" "21H1" = true /\
  lowers "10.5" "3" = true /\ lowers "10.2004" "19040" = true /\
  lowers "8" "0" = true /\ lowers "7" "0" = true.
Proof. repeat split. Qed.

(** ** The order of the update builds *)

(** The update tables keep the order of the updates: a larger
    feature-update number of Windows 10 has the larger build; under one
    requested major number, text that comes later in the order of strings
    has no smaller named build; the numbered updates of Windows 10 lie
    below its named ones, these below 22000, and the named updates of
    Windows 11 at or above 22000. *)
Theorem update_builds_keep_order :
  (forall n1 n2,
      In n1 (map fst feature_updates) ->
      In n2 (map fst feature_updates) ->
      n1 < n2 ->
      detail.buildOfMinor 10 n1 < detail.buildOfMinor 10 n2) /\
  (forall r s1 s2 b1 b2,
      detail.namedUpdate r s1 = Some b1 ->
      detail.namedUpdate r s2 = Some b2 ->
      String.ltb s1 s2 = true ->
      b1 <= b2) /\
  (forall n s b,
      In n (map fst feature_updates) ->
      detail.namedUpdate 10 s = Some b ->
      detail.buildOfMinor 10 n < b /\ b < 22000) /\
  (forall s b, detail.namedUpdate 11 s = Some b -> 22000 <= b).
Proof.
  split; [| split; [| split]].
  - intros n1 n2 H1 H2 Hlt. simpl in H1, H2.
    repeat destruct H1 as [<- | H1]; try contradiction;
      repeat destruct H2 as [<- | H2]; try contradiction;
      try (exfalso; lia); reflexivity.
  - intros r s1 s2 b1 b2 H1 H2 Hlt.
    apply namedUpdate_table in H1 as (c1 & t1 & -> & Hin1).
    apply namedUpdate_table in H2 as (c2 & t2 & -> & Hin2).
    simpl in Hin1, Hin2.
    repeat destruct Hin1 as [[= <- <- <-] | Hin1]; try contradiction;
      repeat destruct Hin2 as [[= <- <-] | Hin2]; try contradiction;
      try discriminate; try lia.
  - intros n s b Hn Hnamed.
    apply namedUpdate_table in Hnamed as (code & tail & _ & Hin).
    simpl in Hn, Hin.
    repeat destruct Hin as [[= _ <-] | Hin]; try contradiction;
      try discriminate;
      repeat destruct Hn as [<- | Hn]; try contradiction;
      split; reflexivity.
  - intros s b Hnamed.
    apply namedUpdate_table in Hnamed as (code & tail & _ & Hin).
    simpl in Hin.
    repeat destruct Hin as [[= _ <-] | Hin]; try contradiction;
      try discriminate; lia.
Qed.

Lemma update_builds_keep_order_witness :
  detail.buildOfMinor 10 1909 < detail.buildOfMinor 10 2004 /\
  19043 <= 19044 /\
  (detail.buildOfMinor 10 2004 < 19042 /\ 19042 < 22000) /\
  22000 <= 22621.
Proof.
  split; [| split; [| split]].
  - apply (proj1 update_builds_keep_order 1909 2004).
    + simpl. tauto.
    + simpl. tauto.
    + lia.
  - apply (proj1 (proj2 update_builds_keep_order) 10 "21H1" "21H2 beta").
    + reflexivity.
    + reflexivity.
    + reflexivity.
  - apply (proj1 (proj2 (proj2 update_builds_keep_order)) 2004 "20H2").
    + simpl. tauto.
    + reflexivity.
  - apply (proj2 (proj2 (proj2 update_builds_keep_order)) "22H2").
    reflexivity.
Defined.
